(** * jira-implementation-generator: ticket normalisation and prompt rendering

    A shallow embedding of the Go packages [pkg/jira] (parseTicket and the
    ticket types) and [pkg/prompt] (createTemplateData, the Markdown and
    POML renderers, convertPOMLToPrompt) together with the template part of
    [runJiraGenerator] from main.go, followed by the properties of the
    specification that were checked against them.

    Conventions.
    - A Go [string] is a sequence of bytes: Rocq's [string].
    - A Go [(T, error)] result is a pair whose second component is
      [option error]; [None] is the nil error.
    - A Go pointer field that may be nil ([*User]) is an [option].
    - A Go slice is a [list]; the nil slice is [[]].
    - Of the Go standard library, strings.TrimSpace, strings.Join,
      fmt.Errorf with [%w] and the fragment of text/template that the
      repository's templates use are embedded; os.ReadFile,
      filepath.Base, time.Parse and xml.Unmarshal are parameters of the
      functions that call them. *)

From Stdlib Require Import String Ascii ZArith List Bool Lia DecimalString.
From Stdlib Require Import Floats.SpecFloat.
From stdpp Require Import base option gmap strings list fin_maps.

Open Scope string_scope.

(** ** Go runtime values shared by both packages *)

(** The line feed, written [\n] in the Go sources. *)
Definition nl : string := String "010"%char EmptyString.

(** Go error values.  [libError] is an error produced by a library
    (package name and message); [wrapError] is the [*fmt.wrapError] built
    by [fmt.Errorf] with a [%w] verb. *)
Inductive error : Type :=
| libError (pkg : string) (msg : string)
| wrapError (msg : string) (err : error).

(** [err.Error()]. *)
Definition Error (e : error) : string :=
  match e with
  | libError _ msg => msg
  | wrapError msg _ => msg
  end.

(** [fmt.Errorf(prefix + "%w", err)]: every call site of the repository
    has the [%w] verb last, after a literal (or already formatted) prefix. *)
Definition Errorf_w (prefix : string) (err : error) : error :=
  wrapError (prefix +:+ Error err) err.

(** [strings.Join]. *)
Definition strings_Join (elems : list string) (sep : string) : string :=
  String.concat sep elems.

(** ** Package jira: types.go *)

Module jira.

Module Status.
Record t : Type := mk { ID : string; Name : string }.
Definition zero : t := mk "" "".
End Status.

Module IssueType.
Record t : Type := mk { ID : string; Name : string }.
Definition zero : t := mk "" "".
End IssueType.

Module Priority.
Record t : Type := mk { ID : string; Name : string }.
Definition zero : t := mk "" "".
End Priority.

Module User.
Record t : Type := mk
  { AccountID : string; DisplayName : string; EmailAddress : string }.
Definition zero : t := mk "" "" "".
End User.

Module Component.
Record t : Type := mk
  { ID : string;
    Name : string;
    Description : string;
    Lead : option User.t;
    Self : string }.
End Component.

Module Project.
Record t : Type := mk { ID : string; Key : string; Name : string }.
Definition zero : t := mk "" "" "".
End Project.

(** [time.Time].  Its three words are never inspected by the repository;
    only the zero value and the results of [time.Parse] occur. *)
Module Time.
Record t : Type := mk { wall : Z; ext : Z; loc : option string }.
Definition zero : t := mk 0 0 None.
End Time.

Module Ticket.
Record t : Type := mk
  { ID : string;
    Key : string;
    Summary : string;
    Description : string;
    Status : Status.t;
    IssueType : IssueType.t;
    Priority : Priority.t;
    Assignee : option User.t;
    Reporter : User.t;
    Created : Time.t;
    Updated : Time.t;
    Labels : list string;
    Components : list Component.t;
    Project : Project.t }.

(** The composite literal [&Ticket{ID: id, Key: key}]: every other
    field holds the zero value of its type. *)
Definition literal (id key : string) : t :=
  mk id key "" "" Status.zero IssueType.zero Priority.zero None User.zero
     Time.zero Time.zero [] [] Project.zero.

(** Field assignments [ticket.F = v]. *)
Definition setSummary (v : string) (x : t) : t :=
  mk (ID x) (Key x) v (Description x) (Status x) (IssueType x) (Priority x)
     (Assignee x) (Reporter x) (Created x) (Updated x) (Labels x)
     (Components x) (Project x).
Definition setDescription (v : string) (x : t) : t :=
  mk (ID x) (Key x) (Summary x) v (Status x) (IssueType x) (Priority x)
     (Assignee x) (Reporter x) (Created x) (Updated x) (Labels x)
     (Components x) (Project x).
Definition setStatus (v : Status.t) (x : t) : t :=
  mk (ID x) (Key x) (Summary x) (Description x) v (IssueType x) (Priority x)
     (Assignee x) (Reporter x) (Created x) (Updated x) (Labels x)
     (Components x) (Project x).
Definition setIssueType (v : IssueType.t) (x : t) : t :=
  mk (ID x) (Key x) (Summary x) (Description x) (Status x) v (Priority x)
     (Assignee x) (Reporter x) (Created x) (Updated x) (Labels x)
     (Components x) (Project x).
Definition setPriority (v : Priority.t) (x : t) : t :=
  mk (ID x) (Key x) (Summary x) (Description x) (Status x) (IssueType x) v
     (Assignee x) (Reporter x) (Created x) (Updated x) (Labels x)
     (Components x) (Project x).
Definition setAssignee (v : option User.t) (x : t) : t :=
  mk (ID x) (Key x) (Summary x) (Description x) (Status x) (IssueType x)
     (Priority x) v (Reporter x) (Created x) (Updated x) (Labels x)
     (Components x) (Project x).
Definition setReporter (v : User.t) (x : t) : t :=
  mk (ID x) (Key x) (Summary x) (Description x) (Status x) (IssueType x)
     (Priority x) (Assignee x) v (Created x) (Updated x) (Labels x)
     (Components x) (Project x).
Definition setCreated (v : Time.t) (x : t) : t :=
  mk (ID x) (Key x) (Summary x) (Description x) (Status x) (IssueType x)
     (Priority x) (Assignee x) (Reporter x) v (Updated x) (Labels x)
     (Components x) (Project x).
Definition setUpdated (v : Time.t) (x : t) : t :=
  mk (ID x) (Key x) (Summary x) (Description x) (Status x) (IssueType x)
     (Priority x) (Assignee x) (Reporter x) (Created x) v (Labels x)
     (Components x) (Project x).
Definition setLabels (v : list string) (x : t) : t :=
  mk (ID x) (Key x) (Summary x) (Description x) (Status x) (IssueType x)
     (Priority x) (Assignee x) (Reporter x) (Created x) (Updated x) v
     (Components x) (Project x).
Definition setComponents (v : list Component.t) (x : t) : t :=
  mk (ID x) (Key x) (Summary x) (Description x) (Status x) (IssueType x)
     (Priority x) (Assignee x) (Reporter x) (Created x) (Updated x)
     (Labels x) v (Project x).
Definition setProject (v : Project.t) (x : t) : t :=
  mk (ID x) (Key x) (Summary x) (Description x) (Status x) (IssueType x)
     (Priority x) (Assignee x) (Reporter x) (Created x) (Updated x)
     (Labels x) (Components x) v.
End Ticket.

(** The dynamic values an [interface{}] of the raw field map holds after
    [json.Unmarshal]: nil, bool, float64, string, [[]interface{}] and
    [map[string]interface{}].  [JNilMap] is a nil map of type
    [map[string]interface{}] stored in the interface, the one value the
    [!= nil] guards of parseTicket tell apart from a decoded object. *)
#[warnings="-register-all"]
Inductive JValue : Type :=
| JNull
| JBool (b : bool)
| JNumber (f : spec_float)
| JString (s : string)
| JArray (l : list JValue)
| JObject (m : gmap string JValue)
| JNilMap.

(** A Go value of type [map[string]interface{}]; [None] is the nil map. *)
Definition GoMap : Type := option (gmap string JValue).

(** [m[key]]: an absent key, and every key of a nil map, yields the zero
    value of [interface{}], which is nil. *)
Definition index (m : GoMap) (key : string) : JValue :=
  match m with
  | Some g => default JNull (g !! key)
  | None => JNull
  end.

(** The type assertion [v.(string)] in its comma-ok form. *)
Definition assertString (v : JValue) : option string :=
  match v with
  | JString s => Some s
  | _ => None
  end.

(** The type assertion [v.(map[string]interface{})] in its comma-ok form. *)
Definition assertMap (v : JValue) : option GoMap :=
  match v with
  | JObject m => Some (Some m)
  | JNilMap => Some None
  | _ => None
  end.

(** The type assertion [v.([]interface{})] in its comma-ok form. *)
Definition assertSlice (v : JValue) : option (list JValue) :=
  match v with
  | JArray l => Some l
  | _ => None
  end.

(** [m != nil] for a map. *)
Definition notNil (m : GoMap) : bool :=
  match m with
  | Some _ => true
  | None => false
  end.

Module JiraResponse.
Record t : Type := mk { ID : string; Key : string; Fields : GoMap }.
End JiraResponse.

(** ** Package jira: client.go *)

(** getStringFromMap safely extracts a string value from a map. *)
Definition getStringFromMap (m : GoMap) (key : string) : string :=
  match assertString (index m key) with
  | Some val => val
  | None => ""
  end.

(** The layout both timestamps are parsed with. *)
Definition timeLayout : string := "2006-01-02T15:04:05.000-0700".

Section client.

(** [time.Parse(layout, value)]. *)
Variable time_Parse : string -> string -> error + Time.t.

Definition parseUser (m : GoMap) : User.t :=
  User.mk (getStringFromMap m "accountId")
          (getStringFromMap m "displayName")
          (getStringFromMap m "emailAddress").

(** One iteration of the loop over [labelsField]. *)
Definition parseLabel (ticket : Ticket.t) (label : JValue) : Ticket.t :=
  match assertString label with
  | Some labelStr =>
      Ticket.setLabels (Ticket.Labels ticket ++ [labelStr]) ticket
  | None => ticket
  end.

(** One iteration of the loop over [componentsField]. *)
Definition parseComponent (ticket : Ticket.t) (comp : JValue) : Ticket.t :=
  match assertMap comp with
  | Some compMap =>
      let component :=
        Component.mk (getStringFromMap compMap "id")
                     (getStringFromMap compMap "name")
                     (getStringFromMap compMap "description")
                     None
                     (getStringFromMap compMap "self") in
      let component :=
        match assertMap (index compMap "lead") with
        | Some leadField =>
            if notNil leadField
            then Component.mk (Component.ID component)
                              (Component.Name component)
                              (Component.Description component)
                              (Some (parseUser leadField))
                              (Component.Self component)
            else component
        | None => component
        end in
      Ticket.setComponents (Ticket.Components ticket ++ [component]) ticket
  | None => ticket
  end.

(** The blocks of parseTicket, in the order of the source.  Each takes
    the raw field map and the ticket built so far. *)

(* Parse summary *)
Definition parseSummary (fields : GoMap) (ticket : Ticket.t) : Ticket.t :=
  match assertString (index fields "summary") with
  | Some summary => Ticket.setSummary summary ticket
  | None => ticket
  end.

(* Parse description *)
Definition parseDescription (fields : GoMap) (ticket : Ticket.t) : Ticket.t :=
  match assertString (index fields "description") with
  | Some description => Ticket.setDescription description ticket
  | None => ticket
  end.

(* Parse status *)
Definition parseStatus (fields : GoMap) (ticket : Ticket.t) : Ticket.t :=
  match assertMap (index fields "status") with
  | Some statusField =>
      Ticket.setStatus
        (Status.mk (getStringFromMap statusField "id")
                   (getStringFromMap statusField "name")) ticket
  | None => ticket
  end.

(* Parse issue type *)
Definition parseIssueType (fields : GoMap) (ticket : Ticket.t) : Ticket.t :=
  match assertMap (index fields "issuetype") with
  | Some issueTypeField =>
      Ticket.setIssueType
        (IssueType.mk (getStringFromMap issueTypeField "id")
                      (getStringFromMap issueTypeField "name")) ticket
  | None => ticket
  end.

(* Parse priority *)
Definition parsePriority (fields : GoMap) (ticket : Ticket.t) : Ticket.t :=
  match assertMap (index fields "priority") with
  | Some priorityField =>
      Ticket.setPriority
        (Priority.mk (getStringFromMap priorityField "id")
                     (getStringFromMap priorityField "name")) ticket
  | None => ticket
  end.

(* Parse assignee *)
Definition parseAssignee (fields : GoMap) (ticket : Ticket.t) : Ticket.t :=
  match assertMap (index fields "assignee") with
  | Some assigneeField =>
      if notNil assigneeField
      then Ticket.setAssignee (Some (parseUser assigneeField)) ticket
      else ticket
  | None => ticket
  end.

(* Parse reporter *)
Definition parseReporter (fields : GoMap) (ticket : Ticket.t) : Ticket.t :=
  match assertMap (index fields "reporter") with
  | Some reporterField => Ticket.setReporter (parseUser reporterField) ticket
  | None => ticket
  end.

(* Parse timestamps *)
Definition parseCreated (fields : GoMap) (ticket : Ticket.t) : Ticket.t :=
  match assertString (index fields "created") with
  | Some created =>
      match time_Parse timeLayout created with
      | inr t => Ticket.setCreated t ticket
      | inl _ => ticket
      end
  | None => ticket
  end.

Definition parseUpdated (fields : GoMap) (ticket : Ticket.t) : Ticket.t :=
  match assertString (index fields "updated") with
  | Some updated =>
      match time_Parse timeLayout updated with
      | inr t => Ticket.setUpdated t ticket
      | inl _ => ticket
      end
  | None => ticket
  end.

(* Parse labels *)
Definition parseLabels (fields : GoMap) (ticket : Ticket.t) : Ticket.t :=
  match assertSlice (index fields "labels") with
  | Some labelsField => foldl parseLabel ticket labelsField
  | None => ticket
  end.

(* Parse components *)
Definition parseComponents (fields : GoMap) (ticket : Ticket.t) : Ticket.t :=
  match assertSlice (index fields "components") with
  | Some componentsField => foldl parseComponent ticket componentsField
  | None => ticket
  end.

(* Parse project *)
Definition parseProject (fields : GoMap) (ticket : Ticket.t) : Ticket.t :=
  match assertMap (index fields "project") with
  | Some projectField =>
      Ticket.setProject
        (Project.mk (getStringFromMap projectField "id")
                    (getStringFromMap projectField "key")
                    (getStringFromMap projectField "name")) ticket
  | None => ticket
  end.

(** parseTicket converts a JiraResponse to a Ticket struct. *)
Definition parseTicket (resp : JiraResponse.t) : Ticket.t * option error :=
  let fields := JiraResponse.Fields resp in
  let ticket := Ticket.literal (JiraResponse.ID resp) (JiraResponse.Key resp) in
  let ticket := parseSummary fields ticket in
  let ticket := parseDescription fields ticket in
  let ticket := parseStatus fields ticket in
  let ticket := parseIssueType fields ticket in
  let ticket := parsePriority fields ticket in
  let ticket := parseAssignee fields ticket in
  let ticket := parseReporter fields ticket in
  let ticket := parseCreated fields ticket in
  let ticket := parseUpdated fields ticket in
  let ticket := parseLabels fields ticket in
  let ticket := parseComponents fields ticket in
  let ticket := parseProject fields ticket in
  (ticket, None).

End client.

End jira.

(** ** Package strings: TrimSpace *)

Module strings.

(** The [asciiSpace] table of package strings: tab, line feed, vertical
    tab, form feed, carriage return and space. *)
Definition asciiSpace (c : ascii) : bool :=
  let n := nat_of_ascii c in
  (Nat.leb 9 n && Nat.leb n 13) || Nat.eqb n 32.

(** The two-byte UTF-8 encodings of the code points of
    [unicode.White_Space] above U+007F: U+0085 and U+00A0. *)
Definition space2 (c1 c2 : ascii) : bool :=
  Nat.eqb (nat_of_ascii c1) 194 &&
  (Nat.eqb (nat_of_ascii c2) 133 || Nat.eqb (nat_of_ascii c2) 160).

(** The three-byte encodings: U+1680, U+2000 to U+200A, U+2028, U+2029,
    U+202F, U+205F and U+3000. *)
Definition space3 (c1 c2 c3 : ascii) : bool :=
  let n1 := nat_of_ascii c1 in
  let n2 := nat_of_ascii c2 in
  let n3 := nat_of_ascii c3 in
  (Nat.eqb n1 225 && Nat.eqb n2 154 && Nat.eqb n3 128) ||
  (Nat.eqb n1 226 && Nat.eqb n2 128 &&
     ((Nat.leb 128 n3 && Nat.leb n3 138) ||
      Nat.eqb n3 168 || Nat.eqb n3 169 || Nat.eqb n3 175)) ||
  (Nat.eqb n1 226 && Nat.eqb n2 129 && Nat.eqb n3 159) ||
  (Nat.eqb n1 227 && Nat.eqb n2 128 && Nat.eqb n3 128).

(** [TrimLeftFunc(s, unicode.IsSpace)]: drop the white-space runes the
    string starts with.  A byte sequence decodes to a white-space rune
    exactly when it is that rune's UTF-8 encoding. *)
Fixpoint trimLeft (s : string) : string :=
  match s with
  | EmptyString => EmptyString
  | String c1 s1 =>
      if asciiSpace c1 then trimLeft s1
      else
        match s1 with
        | EmptyString => s
        | String c2 s2 =>
            if space2 c1 c2 then trimLeft s2
            else
              match s2 with
              | EmptyString => s
              | String c3 s3 => if space3 c1 c2 c3 then trimLeft s3 else s
              end
        end
  end.

(** The same scan over the reversed string, for the right end: the
    encodings are met last byte first. *)
Fixpoint trimLeftRev (s : string) : string :=
  match s with
  | EmptyString => EmptyString
  | String c1 s1 =>
      if asciiSpace c1 then trimLeftRev s1
      else
        match s1 with
        | EmptyString => s
        | String c2 s2 =>
            if space2 c2 c1 then trimLeftRev s2
            else
              match s2 with
              | EmptyString => s
              | String c3 s3 => if space3 c3 c2 c1 then trimLeftRev s3 else s
              end
        end
  end.

Definition reverse (s : string) : string :=
  string_of_list_ascii (rev (list_ascii_of_string s)).

(** [TrimRightFunc(s, unicode.IsSpace)]. *)
Definition trimRight (s : string) : string :=
  reverse (trimLeftRev (reverse s)).

(** [strings.TrimSpace]: all leading and trailing white space removed, as
    defined by Unicode. *)
Definition TrimSpace (s : string) : string := trimRight (trimLeft s).

End strings.

(** ** Package prompt: template.go *)

Module prompt.

Import jira.

(** TemplateData holds the data for prompt template rendering. *)
Module TemplateData.
Record t : Type := mk
  { Summary : string;
    Description : string;
    Status : string;
    IssueType : string;
    Priority : string;
    Components : string;
    Labels : string;
    Assignee : string;
    Reporter : string }.

Definition setAssignee (v : string) (x : t) : t :=
  mk (Summary x) (Description x) (Status x) (IssueType x) (Priority x)
     (Components x) (Labels x) v (Reporter x).
Definition setComponents (v : string) (x : t) : t :=
  mk (Summary x) (Description x) (Status x) (IssueType x) (Priority x)
     v (Labels x) (Assignee x) (Reporter x).
Definition setLabels (v : string) (x : t) : t :=
  mk (Summary x) (Description x) (Status x) (IssueType x) (Priority x)
     (Components x) v (Assignee x) (Reporter x).
End TemplateData.

(** One iteration of the loop over [ticket.Components]:
    [fmt.Sprintf("%s (Lead: %s)", comp.Name, comp.Lead.DisplayName)] or
    [comp.Name] is appended to [compNames]. *)
Definition appendCompName (compNames : list string) (comp : Component.t)
  : list string :=
  match Component.Lead comp with
  | Some lead =>
      compNames ++
        [Component.Name comp +:+ " (Lead: " +:+ User.DisplayName lead +:+ ")"]
  | None => compNames ++ [Component.Name comp]
  end.

(** createTemplateData converts a Jira ticket to template data. *)
Definition createTemplateData (ticket : Ticket.t) : TemplateData.t :=
  let data :=
    TemplateData.mk (Ticket.Summary ticket)
                    (Ticket.Description ticket)
                    (Status.Name (Ticket.Status ticket))
                    (IssueType.Name (Ticket.IssueType ticket))
                    (Priority.Name (Ticket.Priority ticket))
                    "" "" ""
                    (User.DisplayName (Ticket.Reporter ticket)) in
  (* Handle assignee (may be nil) *)
  let data :=
    match Ticket.Assignee ticket with
    | Some assignee => TemplateData.setAssignee (User.DisplayName assignee) data
    | None => TemplateData.setAssignee "Unassigned" data
    end in
  (* Handle components *)
  let data :=
    if Nat.ltb 0 (length (Ticket.Components ticket))
    then
      let compNames := foldl appendCompName [] (Ticket.Components ticket) in
      TemplateData.setComponents (strings_Join compNames ", ") data
    else data in
  (* Handle labels *)
  let data :=
    if Nat.ltb 0 (length (Ticket.Labels ticket))
    then TemplateData.setLabels (strings_Join (Ticket.Labels ticket) ", ") data
    else data in
  data.

(** GetDefaultTemplatePath returns the default template path. *)
Definition GetDefaultTemplatePath : string := "prompts/implementation-plan.md".

(** ** Package prompt: poml.go, the document types *)

Module POMLMetadata.
Record t : Type := mk
  { Status : string;
    Type_ : string;
    Priority : string;
    Assignee : string;
    Reporter : string;
    Components : string;
    Labels : string }.
End POMLMetadata.

Module POMLSection.
Record t : Type := mk
  { Name : string;
    Title : string;
    Description : string;
    Metadata : POMLMetadata.t }.
End POMLSection.

Module POMLContext.
Record t : Type := mk { Sections : list POMLSection.t }.
End POMLContext.

Module POMLRequirement.
Record t : Type := mk { Text : string }.
End POMLRequirement.

Module POMLOutputSection.
Record t : Type := mk { Name : string; Title : string; Content : string }.
End POMLOutputSection.

Module POMLOutputFormat.
Record t : Type := mk { Sections : list POMLOutputSection.t }.
End POMLOutputFormat.

Module POMLStyle.
Record t : Type := mk { Formatting : string }.
End POMLStyle.

Module POMLDocument.
Record t : Type := mk
  { Role : string;
    Task : string;
    Context : POMLContext.t;
    Instructions : list POMLRequirement.t;
    OutputFormat : POMLOutputFormat.t;
    Style : POMLStyle.t }.
End POMLDocument.

(** ** Package prompt: convertPOMLToPrompt *)

(** A [strings.Builder] is the text written so far. *)
Definition Builder : Type := string.

Definition WriteString (prompt : Builder) (s : string) : Builder :=
  prompt +:+ s.

(** [if v != "" { prompt.WriteString(fmt.Sprintf(label + "%s\n", v)) }],
    the shape of every metadata line. *)
Definition writeField (prompt : Builder) (label v : string) : Builder :=
  if String.eqb v "" then prompt
  else WriteString prompt (label +:+ v +:+ nl).

(** The body of the loop over [doc.Context.Sections]. *)
Definition writeSection (prompt : Builder) (section : POMLSection.t) : Builder :=
  let prompt :=
    if String.eqb (POMLSection.Title section) "" then prompt
    else WriteString prompt
           (nl +:+ "Ticket: " +:+ POMLSection.Title section +:+ nl) in
  let prompt := writeField prompt "Description: " (POMLSection.Description section) in
  (* Add metadata *)
  let md := POMLSection.Metadata section in
  let prompt := writeField prompt "Status: " (POMLMetadata.Status md) in
  let prompt := writeField prompt "Type: " (POMLMetadata.Type_ md) in
  let prompt := writeField prompt "Priority: " (POMLMetadata.Priority md) in
  let prompt := writeField prompt "Assignee: " (POMLMetadata.Assignee md) in
  let prompt := writeField prompt "Reporter: " (POMLMetadata.Reporter md) in
  let prompt := writeField prompt "Components: " (POMLMetadata.Components md) in
  let prompt := writeField prompt "Labels: " (POMLMetadata.Labels md) in
  prompt.

(** The body of the loop over [doc.Instructions]. *)
Definition writeRequirement (prompt : Builder) (req : POMLRequirement.t) : Builder :=
  if String.eqb (strings.TrimSpace (POMLRequirement.Text req)) "" then prompt
  else WriteString prompt
         ("- " +:+ strings.TrimSpace (POMLRequirement.Text req) +:+ nl).

(** The body of the loop over [doc.OutputFormat.Sections]. *)
Definition writeOutputSection (prompt : Builder) (section : POMLOutputSection.t)
  : Builder :=
  let prompt :=
    if String.eqb (POMLOutputSection.Title section) "" then prompt
    else WriteString prompt ("## " +:+ POMLOutputSection.Title section +:+ nl) in
  let prompt :=
    if String.eqb (POMLOutputSection.Content section) "" then prompt
    else WriteString prompt
           (strings.TrimSpace (POMLOutputSection.Content section) +:+ nl +:+ nl) in
  prompt.

(** Add role *)
Definition addRole (prompt : Builder) (doc : POMLDocument.t) : Builder :=
  if String.eqb (POMLDocument.Role doc) "" then prompt
  else WriteString prompt
         ("Role: " +:+ strings.TrimSpace (POMLDocument.Role doc) +:+ nl +:+ nl).

(** Add task *)
Definition addTask (prompt : Builder) (doc : POMLDocument.t) : Builder :=
  if String.eqb (POMLDocument.Task doc) "" then prompt
  else WriteString prompt
         ("Task: " +:+ strings.TrimSpace (POMLDocument.Task doc) +:+ nl +:+ nl).

(** Add context *)
Definition addContext (prompt : Builder) (doc : POMLDocument.t) : Builder :=
  let sections := POMLContext.Sections (POMLDocument.Context doc) in
  if Nat.ltb 0 (length sections)
  then
    let prompt := WriteString prompt ("Context:" +:+ nl) in
    let prompt := foldl writeSection prompt sections in
    WriteString prompt nl
  else prompt.

(** Add instructions *)
Definition addInstructions (prompt : Builder) (doc : POMLDocument.t) : Builder :=
  if Nat.ltb 0 (length (POMLDocument.Instructions doc))
  then
    let prompt := WriteString prompt ("Instructions:" +:+ nl) in
    let prompt := foldl writeRequirement prompt (POMLDocument.Instructions doc) in
    WriteString prompt nl
  else prompt.

(** Add output format *)
Definition addOutputFormat (prompt : Builder) (doc : POMLDocument.t) : Builder :=
  let sections := POMLOutputFormat.Sections (POMLDocument.OutputFormat doc) in
  if Nat.ltb 0 (length sections)
  then
    let prompt :=
      WriteString prompt
        ("Please provide your response in the following format:" +:+ nl +:+ nl) in
    foldl writeOutputSection prompt sections
  else prompt.

(** Add style guidance *)
Definition addStyle (prompt : Builder) (doc : POMLDocument.t) : Builder :=
  let formatting := POMLStyle.Formatting (POMLDocument.Style doc) in
  if String.eqb formatting "" then prompt
  else
    let prompt := WriteString prompt ("Formatting Guidelines:" +:+ nl) in
    WriteString prompt (strings.TrimSpace formatting +:+ nl).

(** convertPOMLToPrompt converts a POML document to a plain text prompt. *)
Definition convertPOMLToPrompt (doc : POMLDocument.t) : string :=
  let prompt : Builder := "" in
  let prompt := addRole prompt doc in
  let prompt := addTask prompt doc in
  let prompt := addContext prompt doc in
  let prompt := addInstructions prompt doc in
  let prompt := addOutputFormat prompt doc in
  let prompt := addStyle prompt doc in
  prompt.

End prompt.

(** ** Package text/template: the fragment the repository's templates use

    The templates of the repository (README, Template System) consist of
    literal text, field actions [{{.Summary}}] and conditional blocks
    [{{if .Components}} ... {{else}} ... {{end}}].  This module embeds
    the lexer, the parser and the executor of text/template for that
    fragment.  A template with any other action (pipelines with
    functions, range, with, define, comments, trim markers, variables,
    field chains, an [if] without a space before its field, non-ASCII
    identifiers) is outside the fragment: [Parse] answers
    [OutsideFragment] and the embedding says nothing about it.  The
    messages of [SyntaxError] and of the errors of [Execute] are those
    of text/template without the prefix that gives the template name
    and the position; the properties below use that there is an error,
    not its message. *)

Module template.

Import prompt.

(** What the lexer produces. *)
Inductive item : Type :=
| itemText (text : string)
| itemField (name : string)
| itemIf (name : string)
| itemElse
| itemEnd
| itemOther (action : string)
| itemUnclosed.

(** The parse tree. *)
#[warnings="-register-all"]
Inductive Node : Type :=
| TextNode (Text : string)
| FieldNode (Ident : string)
| IfNode (Pipe : string) (List ElseList : list Node).

Inductive ParseResult : Type :=
| Parsed (Root : list Node)
| SyntaxError (msg : string)
| OutsideFragment.

Definition isByte (n : nat) (c : ascii) : bool := Nat.eqb (nat_of_ascii c) n.

(** [isSpace] of the lexer: space, tab, carriage return, line feed. *)
Definition isSpace (c : ascii) : bool :=
  isByte 32 c || isByte 9 c || isByte 13 c || isByte 10 c.

Definition isLetter (c : ascii) : bool :=
  let n := nat_of_ascii c in
  (Nat.leb 65 n && Nat.leb n 90) || (Nat.leb 97 n && Nat.leb n 122) ||
  Nat.eqb n 95.

Definition isAlphaNumeric (c : ascii) : bool :=
  let n := nat_of_ascii c in
  isLetter c || (Nat.leb 48 n && Nat.leb n 57).

Definition isIdentifier (s : string) : bool :=
  match list_ascii_of_string s with
  | [] => false
  | c :: rest => isLetter c && forallb isAlphaNumeric rest
  end.

Fixpoint skipSpaces (s : string) : string :=
  match s with
  | String c rest => if isSpace c then skipSpaces rest else s
  | EmptyString => EmptyString
  end.

(** The action text without the spaces around it. *)
Definition stripSpaces (s : string) : string :=
  strings.reverse (skipSpaces (strings.reverse (skipSpaces s))).

(** [.Name] with an identifier after the dot. *)
Definition fieldName (s : string) : option string :=
  match s with
  | String c name => if isByte 46 c && isIdentifier name then Some name else None
  | EmptyString => None
  end.

(** The item an action between the delimiters stands for. *)
Definition classify (action : string) : item :=
  let a := stripSpaces action in
  if String.eqb a "end" then itemEnd
  else if String.eqb a "else" then itemElse
  else
    match fieldName a with
    | Some name => itemField name
    | None =>
        match a with
        | String i (String f (String sp rest)) =>
            if isByte 105 i && isByte 102 f && isSpace sp
            then match fieldName (skipSpaces rest) with
                 | Some name => itemIf name
                 | None => itemOther action
                 end
            else itemOther action
        | _ => itemOther action
        end
    end.

Definition emitText (acc : string) : list item :=
  if String.eqb acc "" then [] else [itemText acc].

Definition snoc (acc : string) (c : ascii) : string :=
  acc +:+ String c EmptyString.

(** The lexer: text up to the next left delimiter, then the action up to
    the right delimiter.  [acc] is the text or action read so far. *)
Fixpoint lex (inAction : bool) (acc : string) (input : string) : list item :=
  match input with
  | EmptyString => if inAction then [itemUnclosed] else emitText acc
  | String c rest =>
      match rest with
      | EmptyString =>
          if inAction then [itemUnclosed] else emitText (snoc acc c)
      | String c' rest' =>
          if inAction
          then
            if isByte 125 c && isByte 125 c'
            then classify acc :: lex false "" rest'
            else lex true (snoc acc c) rest
          else
            if isByte 123 c && isByte 123 c'
            then emitText acc ++ lex true "" rest'
            else lex false (snoc acc c) rest
      end
  end.

(** An [{{if}}] whose [{{end}}] has not been read yet: the list it
    interrupted, its pipeline, and its first list once [{{else}}] has
    been read. *)
Record openIf : Type := mkOpenIf
  { outer : list Node; pipe : string; first : option (list Node) }.

(** The parser.  [cur] is the list being built; [stack] the enclosing
    conditionals, innermost first. *)
Fixpoint parseItems (items : list item) (cur : list Node) (stack : list openIf)
  : ParseResult :=
  match items with
  | [] =>
      match stack with
      | [] => Parsed cur
      | _ :: _ => SyntaxError "unexpected EOF"
      end
  | itemText text :: rest => parseItems rest (cur ++ [TextNode text]) stack
  | itemField name :: rest => parseItems rest (cur ++ [FieldNode name]) stack
  | itemIf name :: rest => parseItems rest [] (mkOpenIf cur name None :: stack)
  | itemElse :: rest =>
      match stack with
      | [] => SyntaxError "unexpected {{else}}"
      | o :: stack' =>
          match first o with
          | None =>
              parseItems rest [] (mkOpenIf (outer o) (pipe o) (Some cur) :: stack')
          | Some _ => SyntaxError "expected end; found {{else}}"
          end
      end
  | itemEnd :: rest =>
      match stack with
      | [] => SyntaxError "unexpected {{end}}"
      | o :: stack' =>
          let node :=
            match first o with
            | None => IfNode (pipe o) cur []
            | Some list => IfNode (pipe o) list cur
            end in
          parseItems rest (outer o ++ [node]) stack'
      end
  | itemUnclosed :: _ => SyntaxError "unclosed action"
  | itemOther _ :: _ => OutsideFragment
  end.

Definition isOther (i : item) : bool :=
  match i with
  | itemOther _ => true
  | _ => false
  end.

(** [template.New(name).Parse(text)] on the fragment. *)
Definition Parse (text : string) : ParseResult :=
  let items := lex false "" text in
  if existsb isOther items then OutsideFragment else parseItems items [] [].

(** The fields of [TemplateData], by name. *)
Definition knownFields : list string :=
  ["Summary"; "Description"; "Status"; "IssueType"; "Priority";
   "Components"; "Labels"; "Assignee"; "Reporter"].

(** Field evaluation on the struct value [dot]: a name that is not a
    field of the struct is an execution error. *)
Definition evalField (dot : TemplateData.t) (name : string) : error + string :=
  if String.eqb name "Summary" then inr (TemplateData.Summary dot)
  else if String.eqb name "Description" then inr (TemplateData.Description dot)
  else if String.eqb name "Status" then inr (TemplateData.Status dot)
  else if String.eqb name "IssueType" then inr (TemplateData.IssueType dot)
  else if String.eqb name "Priority" then inr (TemplateData.Priority dot)
  else if String.eqb name "Components" then inr (TemplateData.Components dot)
  else if String.eqb name "Labels" then inr (TemplateData.Labels dot)
  else if String.eqb name "Assignee" then inr (TemplateData.Assignee dot)
  else if String.eqb name "Reporter" then inr (TemplateData.Reporter dot)
  else inl (libError "text/template"
              ("can't evaluate field " +:+ name +:+ " in type prompt.TemplateData")).

(** Truth of a string value: it is not empty. *)
Definition isTrue (v : string) : bool := negb (String.eqb v "").

(** The executor: [wr] is what has been written to the output so far; on
    an error the walk stops and what was written stays written. *)
Fixpoint walk (dot : TemplateData.t) (node : Node) (wr : string)
  : string * option error :=
  let walkList :=
    fix walkList (nodes : list Node) (wr : string) : string * option error :=
      match nodes with
      | [] => (wr, None)
      | n :: rest =>
          match walk dot n wr with
          | (wr', None) => walkList rest wr'
          | (wr', Some err) => (wr', Some err)
          end
      end in
  match node with
  | TextNode text => (wr +:+ text, None)
  | FieldNode name =>
      match evalField dot name with
      | inr v => (wr +:+ v, None)
      | inl err => (wr, Some err)
      end
  | IfNode pipe list elseList =>
      match evalField dot pipe with
      | inl err => (wr, Some err)
      | inr v => if isTrue v then walkList list wr else walkList elseList wr
      end
  end.

Fixpoint walkList (dot : TemplateData.t) (nodes : list Node) (wr : string)
  : string * option error :=
  match nodes with
  | [] => (wr, None)
  | n :: rest =>
      match walk dot n wr with
      | (wr', None) => walkList dot rest wr'
      | (wr', Some err) => (wr', Some err)
      end
  end.

(** [tmpl.Execute(&buf, data)]: the content of [buf] afterwards, and the
    error. *)
Definition Execute (root : list Node) (data : TemplateData.t)
  : string * option error :=
  walkList data root "".

End template.

(** ** Package prompt: the two renderers, and their caller in main.go *)

Module render.

Import jira prompt.

(** The operating-system side: [os.ReadFile] and [filepath.Base]. *)
Record Files : Type := mkFiles
  { os_ReadFile : string -> error + string;
    filepath_Base : string -> string }.

(** Package text/template as the renderers use it:
    [template.New(name).Parse(text)], and [tmpl.Execute(&buf, data)] with
    the content of [buf] afterwards. *)
Record Engine : Type := mkEngine
  { Template : Type;
    template_Parse : string -> string -> error + Template;
    template_Execute : Template -> TemplateData.t -> string * option error }.

(** [xml.Unmarshal([]byte(text), &pomlDoc)]. *)
Definition Decoder : Type := string -> error + POMLDocument.t.

Section renderers.

Variable fs : Files.
Variable engine : Engine.
Variable xml_Unmarshal : Decoder.

(** LoadAndRenderTemplate loads a prompt template and renders it with
    ticket data. *)
Definition LoadAndRenderTemplate (templatePath : string) (ticket : Ticket.t)
  : string * option error :=
  (* Read the template file *)
  match os_ReadFile fs templatePath with
  | inl err =>
      ("", Some (Errorf_w ("failed to read template file " +:+ templatePath
                           +:+ ": ") err))
  | inr templateContent =>
      (* Create template data from ticket *)
      let data := createTemplateData ticket in
      (* Parse and execute template *)
      match template_Parse engine (filepath_Base fs templatePath)
              templateContent with
      | inl err => ("", Some (Errorf_w "failed to parse template: " err))
      | inr tmpl =>
          match template_Execute engine tmpl data with
          | (_, Some err) =>
              ("", Some (Errorf_w "failed to execute template: " err))
          | (buf, None) => (buf, None)
          end
      end
  end.

(** LoadAndRenderPOMLTemplate loads a POML template and renders it with
    ticket data. *)
Definition LoadAndRenderPOMLTemplate (templatePath : string) (ticket : Ticket.t)
  : string * option error :=
  (* Read the POML template file *)
  match os_ReadFile fs templatePath with
  | inl err =>
      ("", Some (Errorf_w ("failed to read POML template file "
                           +:+ templatePath +:+ ": ") err))
  | inr templateContent =>
      (* Create template data from ticket *)
      let data := createTemplateData ticket in
      (* Parse template with Go templating first (for variable substitution) *)
      match template_Parse engine "poml" templateContent with
      | inl err => ("", Some (Errorf_w "failed to parse POML template: " err))
      | inr tmpl =>
          match template_Execute engine tmpl data with
          | (_, Some err) =>
              ("", Some (Errorf_w "failed to execute POML template: " err))
          | (buf, None) =>
              (* Parse the rendered POML XML *)
              match xml_Unmarshal buf with
              | inl err => ("", Some (Errorf_w "failed to parse POML XML: " err))
              | inr pomlDoc =>
                  (* Convert POML to plain text prompt *)
                  let prompt := convertPOMLToPrompt pomlDoc in
                  (prompt, None)
              end
          end
      end
  end.

(** runJiraGenerator, from "Determine template path" to the check of
    the renderer's error: [templatePath] is the value of the
    [--template] flag; the result is [promptText] and the error that
    makes the program exit. *)
Definition runJiraGenerator (templatePath : string) (ticket : Ticket.t)
  : string * option error :=
  (* Determine template path *)
  let templateFilePath := templatePath in
  let templateFilePath :=
    if String.eqb templateFilePath "" then GetDefaultTemplatePath
    else templateFilePath in
  (* Load and render prompt template *)
  LoadAndRenderTemplate templateFilePath ticket.

End renderers.

(** Package text/template as an engine.  On a template of the fragment
    that parses, the tree and its execution are those of module
    [template].  Every other template, one with an action outside the
    fragment or one the parser rejects, goes to [library], the rest of
    text/template, a parameter, together with its name: the parsing of
    the definitions of a template depends on the name, and the message of
    a parse error starts with it.  Inside the fragment the name plays no
    part. *)
Definition goTemplate (library : Engine) : Engine :=
  mkEngine (list template.Node + Template library)
    (fun name text =>
       match template.Parse text with
       | template.Parsed root => inr (inl root)
       | template.SyntaxError _ | template.OutsideFragment =>
           match template_Parse library name text with
           | inl err => inl err
           | inr tmpl => inr (inr tmpl)
           end
       end)
    (fun tmpl data =>
       match tmpl with
       | inl root => template.Execute root data
       | inr tmpl => template_Execute library tmpl data
       end).

End render.

(** * Auxiliary definitions for the statements *)

Module fieldsOf.

Import jira.

(** The component a conforming element of the components array is
    turned into by one iteration of the loop. *)
Definition componentOf (comp : JValue) : option Component.t :=
  match assertMap comp with
  | Some compMap =>
      Some (Component.mk
              (getStringFromMap compMap "id")
              (getStringFromMap compMap "name")
              (getStringFromMap compMap "description")
              (match assertMap (index compMap "lead") with
               | Some leadField =>
                   if notNil leadField then Some (parseUser leadField) else None
               | None => None
               end)
              (getStringFromMap compMap "self"))
  | None => None
  end.

(** The instant a timestamp block leaves in its field when the field
    held [old] before. *)
Definition instantOf (time_Parse : string -> string -> error + Time.t)
    (fields : GoMap) (key : string) (old : Time.t) : Time.t :=
  match assertString (index fields key) with
  | Some value =>
      match time_Parse timeLayout value with
      | inr t => t
      | inl _ => old
      end
  | None => old
  end.

(** The value an [{id, name}] block leaves in its field. *)
Definition idNameOf {A : Type} (mk : string -> string -> A)
    (fields : GoMap) (key : string) (old : A) : A :=
  match assertMap (index fields key) with
  | Some m => mk (getStringFromMap m "id") (getStringFromMap m "name")
  | None => old
  end.

End fieldsOf.

Module projection.

Import jira.

(** The entry of one component in the projected Components value: the
    component's name, or [<name> (Lead: <lead display name>)] when the
    component has a lead. *)
Definition componentEntry (comp : Component.t) : string :=
  match Component.Lead comp with
  | Some lead =>
      Component.Name comp +:+ " (Lead: " +:+ User.DisplayName lead +:+ ")"
  | None => Component.Name comp
  end.

(** A list of entries joined by a comma and a space. *)
Definition commaJoined (entries : list string) : string :=
  String.concat ", " entries.

End projection.

Module blank.

Import prompt.

(** A string that is empty once the white space around it is removed. *)
Definition blankString (s : string) : bool :=
  String.eqb (strings.TrimSpace s) "".


Definition blankRequirement (req : POMLRequirement.t) : bool :=
  blankString (POMLRequirement.Text req).



End blank.

Module writes.

Import prompt.

(** A step on the builder that only appends: what it adds does not
    depend on what was written before. *)
Definition appendOnly (step : Builder -> Builder) : Prop :=
  forall b : Builder, step b = b +:+ step "".

(** The text does not start with the byte [c]. *)
Definition headNot (c : ascii) (s : string) : Prop :=
  match s with
  | EmptyString => True
  | String c' _ => c' <> c
  end.

End writes.

Module references.

Import prompt template.

(** The field an item refers to: the field of a field action, the guard
    of a conditional. *)
Definition itemReference (i : item) : option string :=
  match i with
  | itemField name => Some name
  | itemIf name => Some name
  | _ => None
  end.

(** The context fields a template text refers to, in order. *)
Definition referencedFields (text : string) : list string :=
  omap itemReference (lex false "" text).

(** A field outside the known set. *)
Definition unknownField (name : string) : bool :=
  negb (existsb (String.eqb name) knownFields).


End references.

(** * Inputs of the scenarios *)

Module scenario.

Import jira prompt render.

(** The raw field map [{"summary":"Fix login bug",
    "status":{"id":"1","name":"Open"}}]. *)
Definition loginFields : gmap string JValue :=
  {[ "summary" := JString "Fix login bug";
     "status" := JObject {[ "id" := JString "1"; "name" := JString "Open" ]} ]}.

Definition loginResponse (id key : string) : JiraResponse.t :=
  JiraResponse.mk id key (Some loginFields).

(** A [time.Parse] that knows one instant. *)
Definition oneInstant (layout value : string) : error + Time.t :=
  if String.eqb value "2024-09-17T14:30:52.000+0000"
  then inr (Time.mk 0 63862180252 None)
  else inl (libError "time" ("parsing time " +:+ value)).

(** The document of the flattening scenario: no role, task
    [Plan the fix], one context section titled [LOGIN-1] with the given
    [name] attribute and nothing else, no instructions, no output
    sections, no formatting. *)
Definition noMetadata : POMLMetadata.t := POMLMetadata.mk "" "" "" "" "" "" "".

Definition planDocument (name : string) : POMLDocument.t :=
  POMLDocument.mk "" "Plan the fix"
    (POMLContext.mk [POMLSection.mk name "LOGIN-1" "" noMetadata])
    [] (POMLOutputFormat.mk []) (POMLStyle.mk "").

(** The text the specification gives for that scenario. *)
Definition planTextOfSpec : string :=
  "Task: Plan the fix" +:+ nl +:+ nl +:+ "Context:" +:+ nl +:+ nl +:+
  "Ticket: LOGIN-1" +:+ nl.



(** A ticket with the summary of the login scenario, and neither labels
    nor components. *)
Definition loginTicket : Ticket.t :=
  Ticket.setSummary "Fix login bug" (Ticket.literal "10001" "LOGIN-1").

(** [filepath.Base] for slash-separated paths: the last element, after
    the trailing slashes are removed. *)
Fixpoint dropSlashes (s : string) : string :=
  match s with
  | String c rest => if template.isByte 47 c then dropSlashes rest else s
  | EmptyString => EmptyString
  end.

Fixpoint lastElement (acc : string) (s : string) : string :=
  match s with
  | String c rest =>
      if template.isByte 47 c then lastElement "" rest
      else lastElement (template.snoc acc c) rest
  | EmptyString => acc
  end.

Definition slashBase (path : string) : string :=
  if String.eqb path "" then "."
  else
    let path := strings.reverse (dropSlashes (strings.reverse path)) in
    let path := lastElement "" path in
    if String.eqb path "" then "/" else path.

(** A file system with the given files and nothing else. *)
Definition files (content : list (string * string)) : Files :=
  mkFiles
    (fun path =>
       match list_to_map (M := gmap string string) content !! path with
       | Some text => inr text
       | None =>
           inl (libError "os" ("open " +:+ path +:+ ": no such file or directory"))
       end)
    slashBase.


(** A POML template, as in the README. *)
Definition planTemplate : string :=
  "<poml><task>Plan {{.Summary}}</task></poml>".

(** A stand-in for the part of text/template outside the fragment, for
    inputs that never reach it: it takes no template. *)
Definition noLibrary : Engine :=
  mkEngine unit
    (fun _ _ => inl (libError "text/template" "function not defined"))
    (fun _ _ => ("", None)).

(** A decoder that accepts nothing. *)
Definition noXML : Decoder :=
  fun _ => inl (libError "encoding/xml" "XML syntax error").

End scenario.

(** * The rest of package jira, and the plan file of main.go *)

(** [fmt.Sprintf("%d", n)] for an [int]. *)
Definition itoa (n : Z) : string := NilZero.string_of_int (Z.to_int n).

(** ** Package jira: errors.go *)

Module jiraerrors.

(** The dynamic values of the [error] results of package jira: a
    [*TicketNotFoundError], an [*APIError], or an error made by
    [fmt.Errorf]. *)
Inductive t : Type :=
| TicketNotFoundError (TicketID : string)
| APIError (StatusCode : Z) (Message : string)
| fmtError (err : error).

(** The [Error] methods. *)
Definition Error (e : t) : string :=
  match e with
  | TicketNotFoundError TicketID => "ticket " +:+ TicketID +:+ " not found"
  | APIError StatusCode Message =>
      "API error " +:+ itoa StatusCode +:+ ": " +:+ Message
  | fmtError err => Error err
  end.

(** IsTicketNotFound checks if the error is a TicketNotFoundError; the
    argument is an [error] interface value, [None] when nil. *)
Definition IsTicketNotFound (err : option t) : bool :=
  match err with
  | Some (TicketNotFoundError _) => true
  | _ => false
  end.

End jiraerrors.

(** ** Package net/http, as far as client.go uses it *)

Module http.

Definition StatusOK : Z := 200.
Definition StatusUnauthorized : Z := 401.
Definition StatusNotFound : Z := 404.

(** [http.Header]: the values of each key. *)
Record Request : Type := mkRequest
  { Method : string; URL : string; Header : gmap string (list string) }.

(** [req.Header.Set(key, value)], for a key in canonical form. *)
Definition Header_Set (req : Request) (key value : string) : Request :=
  mkRequest (Method req) (URL req) (<[key := [value]]> (Header req)).

(** A response: its status code, and what [io.ReadAll(resp.Body)]
    returns, the bytes read and the error. *)
Record Response : Type := mkResponse
  { StatusCode : Z; Body : string * option error }.

(** [http.Client]. *)
Record Client : Type := mkClient { Timeout : Z }.

End http.

(** ** Package jira: client.go, the client *)

Module client.

Import jira jiraerrors.

(** RedHatJiraBaseURL is the base URL for Red Hat's Jira instance. *)
Definition RedHatJiraBaseURL : string := "https://issues.redhat.com".

(** [time.Second], in nanoseconds. *)
Definition time_Second : Z := 1000000000.

(** Client represents a Jira API client. *)
Record Client : Type := mkClient
  { BaseURL : string; HTTPClient : http.Client; token : string }.

(** ClientOption represents a configuration option for the client. *)
Definition ClientOption : Type := Client -> Client.

(** WithToken sets the Personal Access Token for authentication. *)
Definition WithToken (token : string) : ClientOption :=
  fun c => mkClient (BaseURL c) (HTTPClient c) token.

(** WithBaseURL sets a custom base URL for the Jira instance. *)
Definition WithBaseURL (baseURL : string) : ClientOption :=
  fun c => mkClient baseURL (HTTPClient c) (client.token c).

(** NewClient creates a new Jira client for issues.redhat.com. *)
Definition NewClient (opts : list ClientOption) : Client :=
  let client :=
    mkClient RedHatJiraBaseURL (http.mkClient (30 * time_Second)) "" in
  (* Apply options *)
  foldl (fun client opt => opt client) client opts.

(** The loop of GetTicketSummary over [t.Components]; [i] is the index
    of the first component of [comps]. *)
Fixpoint writeComponents (i : nat) (summary : prompt.Builder)
    (comps : list Component.t) : prompt.Builder :=
  match comps with
  | [] => summary
  | comp :: rest =>
      let summary :=
        if Nat.ltb 0 i then prompt.WriteString summary ", " else summary in
      let summary := prompt.WriteString summary (Component.Name comp) in
      let summary :=
        match Component.Lead comp with
        | Some lead =>
            prompt.WriteString summary
              (" (Lead: " +:+ User.DisplayName lead +:+ ")")
        | None => summary
        end in
      writeComponents (S i) summary rest
  end.

(** GetTicketSummary returns a formatted summary of the ticket including
    components. *)
Definition GetTicketSummary (t : Ticket.t) : string :=
  let summary : prompt.Builder := "" in
  let summary :=
    prompt.WriteString summary
      ("Ticket: " +:+ Ticket.Key t +:+ " - " +:+ Ticket.Summary t +:+ nl) in
  let summary :=
    prompt.WriteString summary
      ("Status: " +:+ Status.Name (Ticket.Status t) +:+
       " | Type: " +:+ IssueType.Name (Ticket.IssueType t) +:+
       " | Priority: " +:+ Priority.Name (Ticket.Priority t) +:+ nl) in
  let summary :=
    match Ticket.Assignee t with
    | Some assignee =>
        prompt.WriteString summary
          ("Assignee: " +:+ User.DisplayName assignee +:+ nl)
    | None => prompt.WriteString summary ("Assignee: Unassigned" +:+ nl)
    end in
  let summary :=
    prompt.WriteString summary
      ("Reporter: " +:+ User.DisplayName (Ticket.Reporter t) +:+ nl) in
  let summary :=
    if Nat.ltb 0 (length (Ticket.Components t))
    then
      let summary := prompt.WriteString summary "Components: " in
      let summary := writeComponents 0 summary (Ticket.Components t) in
      prompt.WriteString summary nl
    else summary in
  let summary :=
    if Nat.ltb 0 (length (Ticket.Labels t))
    then
      prompt.WriteString summary
        ("Labels: " +:+ strings_Join (Ticket.Labels t) ", " +:+ nl)
    else summary in
  summary.

Section requests.

(** [url.Parse], which decides whether [http.NewRequest] succeeds. *)
Variable url_Parse : string -> option error.

(** [c.HTTPClient.Do(req)]. *)
Variable Client_Do : http.Client -> http.Request -> error + http.Response.

(** [json.Unmarshal(body, &jiraResp)]. *)
Variable json_Unmarshal : string -> error + JiraResponse.t.

(** [time.Parse(layout, value)]. *)
Variable time_Parse : string -> string -> error + Time.t.

(** [http.NewRequest(method, url, nil)] for the method GET. *)
Definition http_NewRequest (method url : string) : error + http.Request :=
  match url_Parse url with
  | Some err => inl err
  | None => inr (http.mkRequest method url ∅)
  end.

(** GetTicket fetches a Jira ticket by its ID or key. *)
Definition GetTicket (c : Client) (ticketID : string)
  : option Ticket.t * option jiraerrors.t :=
  let url := BaseURL c +:+ "/rest/api/2/issue/" +:+ ticketID in
  match http_NewRequest "GET" url with
  | inl err => (None, Some (fmtError (Errorf_w "failed to create request: " err)))
  | inr req =>
      let req := http.Header_Set req "Accept" "application/json" in
      let req := http.Header_Set req "Content-Type" "application/json" in
      (* Add authentication header if token is provided *)
      let req :=
        if negb (String.eqb (token c) "")
        then http.Header_Set req "Authorization" ("Bearer " +:+ token c)
        else req in
      match Client_Do (HTTPClient c) req with
      | inl err =>
          (None, Some (fmtError (Errorf_w "failed to execute request: " err)))
      | inr resp =>
          if Z.eqb (http.StatusCode resp) http.StatusNotFound
          then (None, Some (TicketNotFoundError ticketID))
          else if negb (Z.eqb (http.StatusCode resp) http.StatusOK)
          then
            let body := fst (http.Body resp) in
            (None, Some (APIError (http.StatusCode resp) body))
          else
            match http.Body resp with
            | (_, Some err) =>
                (None,
                 Some (fmtError (Errorf_w "failed to read response body: " err)))
            | (body, None) =>
                match json_Unmarshal body with
                | inl err =>
                    (None,
                     Some (fmtError
                             (Errorf_w "failed to unmarshal response: " err)))
                | inr jiraResp =>
                    match parseTicket time_Parse jiraResp with
                    | (_, Some err) =>
                        (None,
                         Some (fmtError
                                 (Errorf_w "failed to parse ticket: " err)))
                    | (ticket, None) => (Some ticket, None)
                    end
                end
            end
      end
  end.

(** TestAuthentication tests if the current authentication is valid. *)
Definition TestAuthentication (c : Client) : option jiraerrors.t :=
  if String.eqb (token c) ""
  then Some (fmtError (libError "fmt" "no authentication token provided"))
  else
    let url := BaseURL c +:+ "/rest/api/2/myself" in
    match http_NewRequest "GET" url with
    | inl err => Some (fmtError (Errorf_w "failed to create request: " err))
    | inr req =>
        let req := http.Header_Set req "Accept" "application/json" in
        let req :=
          http.Header_Set req "Authorization" ("Bearer " +:+ token c) in
        match Client_Do (HTTPClient c) req with
        | inl err =>
            Some (fmtError (Errorf_w "failed to execute request: " err))
        | inr resp =>
            if Z.eqb (http.StatusCode resp) http.StatusUnauthorized
            then Some (fmtError
                         (libError "fmt" "authentication failed: invalid token"))
            else if negb (Z.eqb (http.StatusCode resp) http.StatusOK)
            then
              let body := fst (http.Body resp) in
              Some (fmtError
                      (libError "fmt"
                         ("authentication test failed with status " +:+
                          itoa (http.StatusCode resp) +:+ ": " +:+ body)))
            else None
        end
    end.

End requests.

End client.

(** ** main.go: saveImplementationPlan *)

Module planfile.

Import jira.

(** What saveImplementationPlan does to the outside, in order. *)
Inductive effect : Type :=
| MkdirAll (path : string) (perm : Z)
| WriteFile (name : string) (data : string) (perm : Z)
| Printf (text : string).

(** The check mark U+2713 of the success message, in UTF-8. *)
Definition checkMark : string :=
  String "226" (String "156" (String "147" EmptyString)).

(** The markdown content with metadata header; [generated] is
    [time.Now().Format("2006-01-02 15:04:05")]. *)
Definition planContent (ticketID : string) (ticket : Ticket.t)
    (generated plan : string) : string :=
  let content : prompt.Builder := "" in
  let content :=
    prompt.WriteString content
      ("# Implementation Plan: " +:+ Ticket.Summary ticket +:+ nl +:+ nl) in
  let content :=
    prompt.WriteString content ("**Ticket ID:** " +:+ ticketID +:+ nl) in
  let content :=
    prompt.WriteString content ("**Generated:** " +:+ generated +:+ nl) in
  let content :=
    prompt.WriteString content
      ("**Status:** " +:+ Status.Name (Ticket.Status ticket) +:+ nl) in
  let content :=
    prompt.WriteString content
      ("**Type:** " +:+ IssueType.Name (Ticket.IssueType ticket) +:+ nl) in
  let content :=
    prompt.WriteString content
      ("**Priority:** " +:+ Priority.Name (Ticket.Priority ticket) +:+ nl) in
  let content :=
    match Ticket.Assignee ticket with
    | Some assignee =>
        prompt.WriteString content
          ("**Assignee:** " +:+ User.DisplayName assignee +:+ nl)
    | None => prompt.WriteString content ("**Assignee:** Unassigned" +:+ nl)
    end in
  let content :=
    prompt.WriteString content
      ("**Reporter:** " +:+ User.DisplayName (Ticket.Reporter ticket) +:+ nl) in
  let content :=
    if Nat.ltb 0 (length (Ticket.Components ticket))
    then
      let compNames :=
        foldl (fun (compNames : list string) comp =>
                 (compNames ++ [Component.Name comp])%list) []
          (Ticket.Components ticket) in
      prompt.WriteString content
        ("**Components:** " +:+ strings_Join compNames ", " +:+ nl)
    else content in
  let content :=
    if Nat.ltb 0 (length (Ticket.Labels ticket))
    then
      prompt.WriteString content
        ("**Labels:** " +:+ strings_Join (Ticket.Labels ticket) ", " +:+ nl)
    else content in
  let content := prompt.WriteString content (nl +:+ "---" +:+ nl +:+ nl) in
  let content := prompt.WriteString content plan in
  content.

Section save.

(** [os.MkdirAll(path, 0755)] and [os.WriteFile(name, data, 0644)]. *)
Variable os_MkdirAll : string -> option error.
Variable os_WriteFile : string -> string -> option error.

(** [filepath.Join(dir, filename)]. *)
Variable filepath_Join : string -> string -> string.

(** [time.Now().Format("20060102_150405")] at the first reading of the
    clock, [time.Now().Format("2006-01-02 15:04:05")] at the second. *)
Variable timestamp : string.
Variable generated : string.

(** saveImplementationPlan saves the implementation plan to a markdown
    file: the effects, in order, and the error returned. *)
Definition saveImplementationPlan (ticketID : string) (ticket : Ticket.t)
    (plan : string) (dir : string) : list effect * option error :=
  (* Create output directory if it doesn't exist *)
  match os_MkdirAll dir with
  | Some err =>
      ([MkdirAll dir 493],
       Some (Errorf_w ("failed to create directory " +:+ dir +:+ ": ") err))
  | None =>
      (* Generate filename with ticket ID and timestamp *)
      let filename := ticketID +:+ "_" +:+ timestamp +:+ ".md" in
      let filePath := filepath_Join dir filename in
      (* Create markdown content with metadata header *)
      let content := planContent ticketID ticket generated plan in
      (* Write to file *)
      match os_WriteFile filePath content with
      | Some err =>
          ([MkdirAll dir 493; WriteFile filePath content 420],
           Some (Errorf_w ("failed to write file " +:+ filePath +:+ ": ") err))
      | None =>
          ([MkdirAll dir 493; WriteFile filePath content 420;
            Printf (nl +:+ checkMark +:+ " Implementation plan saved to: "
                    +:+ filePath +:+ nl)],
           None)
      end
  end.

End save.

End planfile.

(** * Further auxiliary definitions for the statements *)

Module more.

Import jira prompt template.

(** The keys of the raw field map that parseTicket names. *)
Definition knownKeys : list string :=
  ["summary"; "description"; "status"; "issuetype"; "priority"; "assignee";
   "reporter"; "created"; "updated"; "labels"; "components"; "project"].

(** The text has no left delimiter. *)
Fixpoint noLeftDelim (s : string) : bool :=
  match s with
  | EmptyString => true
  | String c rest =>
      match rest with
      | EmptyString => true
      | String c' _ => negb (isByte 123 c && isByte 123 c') && noLeftDelim rest
      end
  end.

(** The text has no opening brace at all. *)
Fixpoint noBrace (s : string) : bool :=
  match s with
  | EmptyString => true
  | String c rest => negb (isByte 123 c) && noBrace rest
  end.

(** Every field the node refers to, at any depth, is a known field. *)
Fixpoint knownOnly (node : Node) : bool :=
  match node with
  | TextNode _ => true
  | FieldNode ident => negb (references.unknownField ident)
  | IfNode pipe list elseList =>
      negb (references.unknownField pipe) &&
      forallb knownOnly list && forallb knownOnly elseList
  end.

(** The same for a conditional whose end has not been read. *)
Definition knownOpenIf (o : openIf) : bool :=
  negb (references.unknownField (pipe o)) &&
  forallb knownOnly (outer o) &&
  match first o with
  | Some list => forallb knownOnly list
  | None => true
  end.

(** The bullet line of a requirement. *)
Definition bullet (req : POMLRequirement.t) : string :=
  "- " +:+ strings.TrimSpace (POMLRequirement.Text req) +:+ nl.

(** The text ends with a line feed. *)
Fixpoint endsWithNl (s : string) : bool :=
  match s with
  | EmptyString => false
  | String c rest =>
      match rest with
      | EmptyString => isByte 10 c
      | String _ _ => endsWithNl rest
      end
  end.

(** Empty, or ending with a line feed. *)
Definition closedLine (s : string) : Prop := s = "" \/ endsWithNl s = true.

(** The name a conforming element of the components array gives its
    component. *)
Definition componentName (comp : JValue) : option string :=
  match assertMap comp with
  | Some compMap => Some (getStringFromMap compMap "name")
  | None => None
  end.

(** The nodes of a stretch of literal text: none when it is empty. *)
Definition textNodes (text : string) : list Node :=
  if String.eqb text "" then [] else [TextNode text].

(** Every field of the list is a known field. *)
Definition allKnown (names : list string) : bool :=
  forallb (fun name => negb (references.unknownField name)) names.

End more.

(** * Further inputs *)

Module samples.

Import jira prompt render client.

(** A raw field map with a null assignee, labels of which one is a
    number, and components of which one is a string. *)
Definition mixedFields : gmap string JValue :=
  {[ "summary" := JString "Fix login bug";
     "assignee" := JNull;
     "labels" := JArray [JString "backend"; JNumber (S754_finite false 7 0);
                         JString "urgent"];
     "components" :=
       JArray [JObject {[ "name" := JString "Auth";
                          "lead" := JObject {[ "displayName" := JString "Ada" ]} ]};
               JString "UI";
               JObject {[ "name" := JString "Web" ]}] ]}.

Definition mixedResponse : JiraResponse.t :=
  JiraResponse.mk "10001" "LOGIN-1" (Some mixedFields).

(** The same response with one more key, which parseTicket does not
    name. *)
Definition mixedResponseMore : JiraResponse.t :=
  JiraResponse.mk "10001" "LOGIN-1"
    (Some (<["customfield_10010" := JString "Sprint 7"]> mixedFields)).

(** Every URL is well formed. *)
Definition anyURL : string -> option error := fun _ => None.

(** A server that answers every request with status 404. *)
Definition notFoundServer : http.Client -> http.Request -> error + http.Response :=
  fun _ _ => inr (http.mkResponse 404 ("", None)).

(** A decoder that accepts nothing. *)
Definition noJSON : string -> error + JiraResponse.t :=
  fun _ => inl (libError "encoding/json" "unexpected end of JSON input").

(** The client of main.go for a token and the default base URL. *)
Definition tokenClient : Client :=
  NewClient [WithToken "secret"; WithBaseURL "https://issues.redhat.com"].

(** A template with a Components block between two sentences. *)
Definition componentsTemplate : string :=
  "Plan." +:+ "{{if .Components}}" +:+ " Components involved." +:+
  "{{end}}" +:+ " Done.".

(** Requirements of which the second is blank. *)
Definition threeRequirements : POMLDocument.t :=
  POMLDocument.mk "" "" (POMLContext.mk [])
    [POMLRequirement.mk "  Keep it short ";
     POMLRequirement.mk "   ";
     POMLRequirement.mk "Cite files"]
    (POMLOutputFormat.mk []) (POMLStyle.mk "").

(** A disk on which no directory can be made. *)
Definition readOnlyDisk : string -> option error :=
  fun path => Some (libError "os" ("mkdir " +:+ path +:+ ": read-only file system")).

Definition noWrite : string -> string -> option error :=
  fun name _ => Some (libError "os" ("open " +:+ name +:+ ": read-only file system")).

Definition slashJoin (dir name : string) : string := dir +:+ "/" +:+ name.

End samples.

(** * Checks of the library embeddings *)

(** White space of both kinds is trimmed at both ends and kept inside;
    here the no-break space U+00A0 and the line feed. *)
Example TrimSpace_unicode :
  strings.TrimSpace
    (String "194" (String "160" (" Plan the  fix" +:+ nl +:+
                                 String "194" (String "160" " "))))
  = "Plan the  fix".
Proof. reflexivity. Qed.

(** A byte that is not the encoding of a white-space rune stays. *)
Example TrimSpace_stray_byte :
  strings.TrimSpace (String "160" " x ") = String "160" " x".
Proof. reflexivity. Qed.

(** The Markdown template of the README, shortened, and a conditional. *)
Example Parse_markdown :
  template.Parse
    ("# Implementation Plan for {{.Summary}}" +:+ nl +:+
     "{{if .Labels}}Labels: {{ .Labels }}{{else}}No labels{{end}}")
  = template.Parsed
      [template.TextNode "# Implementation Plan for ";
       template.FieldNode "Summary";
       template.TextNode nl;
       template.IfNode "Labels"
         [template.TextNode "Labels: "; template.FieldNode "Labels"]
         [template.TextNode "No labels"]].
Proof. reflexivity. Qed.

Example slashBase_paths :
  scenario.slashBase "prompts/implementation-plan.md" = "implementation-plan.md" /\
  scenario.slashBase "prompts/" = "prompts" /\
  scenario.slashBase "" = "." /\
  scenario.slashBase "//" = "/".
Proof. repeat split. Qed.

Example Parse_unbalanced :
  template.Parse "{{if .Labels}}{{.Labels}}" = template.SyntaxError "unexpected EOF" /\
  template.Parse "{{.Labels}}{{end}}" = template.SyntaxError "unexpected {{end}}" /\
  template.Parse "{{.Labels" = template.SyntaxError "unclosed action" /\
  template.Parse "{{range .Labels}}{{end}}" = template.OutsideFragment.
Proof. repeat split. Qed.

(** * Properties of the normalizer *)

Section normalizer.

Import jira fieldsOf.

Variable time_Parse : string -> string -> error + Time.t.

(** An absent key reads as the nil interface value. *)
Lemma index_absent (g : gmap string JValue) (key : string) :
  g !! key = None -> index (Some g) key = JNull.
Proof. intros H. unfold index. by rewrite H. Qed.

(** The loop over the labels keeps the strings, in order, and touches
    no other field. *)
Lemma foldl_parseLabel (l : list JValue) (t : Ticket.t) :
  foldl parseLabel t l
  = Ticket.setLabels (Ticket.Labels t ++ omap assertString l) t.
Proof.
  revert t. induction l as [|v l IH]; intros t; simpl.
  - rewrite app_nil_r. by destruct t.
  - rewrite IH. unfold parseLabel.
    destruct (assertString v) as [s|]; simpl; [|reflexivity].
    unfold Ticket.setLabels; simpl. by rewrite <- app_assoc.
Qed.

Lemma foldl_parseComponent (l : list JValue) (t : Ticket.t) :
  foldl parseComponent t l
  = Ticket.setComponents (Ticket.Components t ++ omap componentOf l) t.
Proof.
  revert t. induction l as [|v l IH]; intros t; simpl.
  - rewrite app_nil_r. by destruct t.
  - rewrite IH. unfold parseComponent, componentOf.
    destruct (assertMap v) as [m|]; simpl; [|reflexivity].
    unfold Ticket.setComponents; simpl. rewrite <- app_assoc. simpl.
    destruct (assertMap (index m "lead")) as [lead|]; [|reflexivity].
    by destruct (notNil lead).
Qed.

(** Each block assigns one field and leaves the others as they were. *)
Lemma parseSummary_sets (f : GoMap) (t : Ticket.t) :
  parseSummary f t
  = Ticket.setSummary
      (default (Ticket.Summary t) (assertString (index f "summary"))) t.
Proof. unfold parseSummary. destruct t. by case_match. Qed.

Lemma parseDescription_sets (f : GoMap) (t : Ticket.t) :
  parseDescription f t
  = Ticket.setDescription
      (default (Ticket.Description t) (assertString (index f "description"))) t.
Proof. unfold parseDescription. destruct t. by case_match. Qed.

Lemma parseStatus_sets (f : GoMap) (t : Ticket.t) :
  parseStatus f t
  = Ticket.setStatus (idNameOf Status.mk f "status" (Ticket.Status t)) t.
Proof. unfold parseStatus, idNameOf. destruct t. by case_match. Qed.

Lemma parseIssueType_sets (f : GoMap) (t : Ticket.t) :
  parseIssueType f t
  = Ticket.setIssueType
      (idNameOf IssueType.mk f "issuetype" (Ticket.IssueType t)) t.
Proof. unfold parseIssueType, idNameOf. destruct t. by case_match. Qed.

Lemma parsePriority_sets (f : GoMap) (t : Ticket.t) :
  parsePriority f t
  = Ticket.setPriority
      (idNameOf Priority.mk f "priority" (Ticket.Priority t)) t.
Proof. unfold parsePriority, idNameOf. destruct t. by case_match. Qed.

Lemma parseAssignee_sets (f : GoMap) (t : Ticket.t) :
  parseAssignee f t
  = Ticket.setAssignee
      (match assertMap (index f "assignee") with
       | Some m => if notNil m then Some (parseUser m) else Ticket.Assignee t
       | None => Ticket.Assignee t
       end) t.
Proof. unfold parseAssignee. destruct t. by repeat case_match. Qed.

Lemma parseReporter_sets (f : GoMap) (t : Ticket.t) :
  parseReporter f t
  = Ticket.setReporter
      (match assertMap (index f "reporter") with
       | Some m => parseUser m
       | None => Ticket.Reporter t
       end) t.
Proof. unfold parseReporter. destruct t. by case_match. Qed.

Lemma parseCreated_sets (f : GoMap) (t : Ticket.t) :
  parseCreated time_Parse f t
  = Ticket.setCreated (instantOf time_Parse f "created" (Ticket.Created t)) t.
Proof. unfold parseCreated, instantOf. destruct t. by repeat case_match. Qed.

Lemma parseUpdated_sets (f : GoMap) (t : Ticket.t) :
  parseUpdated time_Parse f t
  = Ticket.setUpdated (instantOf time_Parse f "updated" (Ticket.Updated t)) t.
Proof. unfold parseUpdated, instantOf. destruct t. by repeat case_match. Qed.

Lemma parseLabels_sets (f : GoMap) (t : Ticket.t) :
  parseLabels f t
  = Ticket.setLabels
      (match assertSlice (index f "labels") with
       | Some l => Ticket.Labels t ++ omap assertString l
       | None => Ticket.Labels t
       end) t.
Proof.
  unfold parseLabels. case_match; [apply foldl_parseLabel | by destruct t].
Qed.

Lemma parseComponents_sets (f : GoMap) (t : Ticket.t) :
  parseComponents f t
  = Ticket.setComponents
      (match assertSlice (index f "components") with
       | Some l => Ticket.Components t ++ omap componentOf l
       | None => Ticket.Components t
       end) t.
Proof.
  unfold parseComponents. case_match; [apply foldl_parseComponent | by destruct t].
Qed.

Lemma parseProject_sets (f : GoMap) (t : Ticket.t) :
  parseProject f t
  = Ticket.setProject
      (match assertMap (index f "project") with
       | Some m => Project.mk (getStringFromMap m "id")
                              (getStringFromMap m "key")
                              (getStringFromMap m "name")
       | None => Ticket.Project t
       end) t.
Proof. unfold parseProject. destruct t. by case_match. Qed.

(** parseTicket in one piece: the ticket it returns, field by field. *)
Lemma parseTicket_fields (resp : JiraResponse.t) :
  parseTicket time_Parse resp =
  (Ticket.mk
     (JiraResponse.ID resp)
     (JiraResponse.Key resp)
     (default "" (assertString (index (JiraResponse.Fields resp) "summary")))
     (default "" (assertString (index (JiraResponse.Fields resp) "description")))
     (idNameOf Status.mk (JiraResponse.Fields resp) "status" Status.zero)
     (idNameOf IssueType.mk (JiraResponse.Fields resp) "issuetype" IssueType.zero)
     (idNameOf Priority.mk (JiraResponse.Fields resp) "priority" Priority.zero)
     (match assertMap (index (JiraResponse.Fields resp) "assignee") with
      | Some m => if notNil m then Some (parseUser m) else None
      | None => None
      end)
     (match assertMap (index (JiraResponse.Fields resp) "reporter") with
      | Some m => parseUser m
      | None => User.zero
      end)
     (instantOf time_Parse (JiraResponse.Fields resp) "created" Time.zero)
     (instantOf time_Parse (JiraResponse.Fields resp) "updated" Time.zero)
     (match assertSlice (index (JiraResponse.Fields resp) "labels") with
      | Some l => omap assertString l
      | None => []
      end)
     (match assertSlice (index (JiraResponse.Fields resp) "components") with
      | Some l => omap componentOf l
      | None => []
      end)
     (match assertMap (index (JiraResponse.Fields resp) "project") with
      | Some m => Project.mk (getStringFromMap m "id")
                             (getStringFromMap m "key")
                             (getStringFromMap m "name")
      | None => Project.zero
      end),
   None).
Proof.
  unfold parseTicket.
  rewrite parseSummary_sets, parseDescription_sets, parseStatus_sets,
    parseIssueType_sets, parsePriority_sets, parseAssignee_sets,
    parseReporter_sets, parseCreated_sets, parseUpdated_sets,
    parseLabels_sets, parseComponents_sets, parseProject_sets.
  cbn -[index assertString assertMap assertSlice idNameOf instantOf].
  do 2 f_equal; by destruct (assertSlice _).
Qed.

(** C1.  For every raw field map, parseTicket returns a ticket and the
    nil error.  The envelope's id and key are copied; every known field
    whose key is absent or whose value has the wrong shape (the type
    assertion on [fields[key]] fails; for a timestamp also: time.Parse
    rejects the string under the one layout) holds the zero value of
    its type.  For the raw map [{"summary":"Fix login bug",
    "status":{"id":"1","name":"Open"}}] the ticket has that summary,
    status [{1, Open}] and every other field, IssueType among them, at
    its zero value. *)
Theorem parseTicket_lenient (resp : JiraResponse.t) :
  (exists ticket : Ticket.t,
     parseTicket time_Parse resp = (ticket, None) /\
     Ticket.ID ticket = JiraResponse.ID resp /\
     Ticket.Key ticket = JiraResponse.Key resp /\
     (assertString (index (JiraResponse.Fields resp) "summary") = None ->
      Ticket.Summary ticket = "") /\
     (assertString (index (JiraResponse.Fields resp) "description") = None ->
      Ticket.Description ticket = "") /\
     (assertMap (index (JiraResponse.Fields resp) "status") = None ->
      Ticket.Status ticket = Status.zero) /\
     (assertMap (index (JiraResponse.Fields resp) "issuetype") = None ->
      Ticket.IssueType ticket = IssueType.zero) /\
     (assertMap (index (JiraResponse.Fields resp) "priority") = None ->
      Ticket.Priority ticket = Priority.zero) /\
     (assertMap (index (JiraResponse.Fields resp) "assignee") = None ->
      Ticket.Assignee ticket = None) /\
     (assertMap (index (JiraResponse.Fields resp) "reporter") = None ->
      Ticket.Reporter ticket = User.zero) /\
     ((forall value,
          assertString (index (JiraResponse.Fields resp) "created") = Some value ->
          exists err, time_Parse timeLayout value = inl err) ->
      Ticket.Created ticket = Time.zero) /\
     ((forall value,
          assertString (index (JiraResponse.Fields resp) "updated") = Some value ->
          exists err, time_Parse timeLayout value = inl err) ->
      Ticket.Updated ticket = Time.zero) /\
     (assertSlice (index (JiraResponse.Fields resp) "labels") = None ->
      Ticket.Labels ticket = []) /\
     (assertSlice (index (JiraResponse.Fields resp) "components") = None ->
      Ticket.Components ticket = []) /\
     (assertMap (index (JiraResponse.Fields resp) "project") = None ->
      Ticket.Project ticket = Project.zero)) /\
  (forall id key : string,
      parseTicket time_Parse (scenario.loginResponse id key)
      = (Ticket.mk id key "Fix login bug" "" (Status.mk "1" "Open")
           IssueType.zero Priority.zero None User.zero Time.zero Time.zero
           [] [] Project.zero,
         None)).
Proof.
  split.
  - eexists. split; [apply parseTicket_fields|].
    cbn [Ticket.ID Ticket.Key Ticket.Summary Ticket.Description Ticket.Status
         Ticket.IssueType Ticket.Priority Ticket.Assignee Ticket.Reporter
         Ticket.Created Ticket.Updated Ticket.Labels Ticket.Components
         Ticket.Project].
    unfold idNameOf, instantOf.
    repeat split; try (intros ->; reflexivity).
    + intros H.
      destruct (assertString (index _ "created")) as [value|]; [|reflexivity].
      destruct (H value eq_refl) as [err ->]. reflexivity.
    + intros H.
      destruct (assertString (index _ "updated")) as [value|]; [|reflexivity].
      destruct (H value eq_refl) as [err ->]. reflexivity.
  - intros id key. rewrite parseTicket_fields. reflexivity.
Qed.

End normalizer.

(** The theorem at the login scenario with a [time.Parse] that knows one
    instant: the issue type, whose key is absent, is the zero value. *)
Lemma parseTicket_lenient_witness :
  exists ticket : jira.Ticket.t,
    jira.parseTicket scenario.oneInstant (scenario.loginResponse "10001" "LOGIN-1")
    = (ticket, None) /\
    jira.Ticket.IssueType ticket = jira.IssueType.zero /\
    jira.Ticket.Created ticket = jira.Time.zero.
Proof.
  destruct (parseTicket_lenient scenario.oneInstant
              (scenario.loginResponse "10001" "LOGIN-1")) as [[ticket H] _].
  exists ticket.
  destruct H as (Hrun & _ & _ & _ & _ & _ & Htype & _ & _ & _ & Hcreated & _).
  split; [exact Hrun|]. split.
  - apply Htype. reflexivity.
  - apply Hcreated. intros value Hvalue. discriminate Hvalue.
Defined.

(** * Properties of the rendering context *)

Section projector.

Import jira prompt projection.

Lemma foldl_appendCompName (comps : list Component.t) (acc : list string) :
  foldl appendCompName acc comps = (acc ++ map componentEntry comps)%list.
Proof.
  revert acc. induction comps as [|c comps IH]; intros acc; simpl.
  - by rewrite app_nil_r.
  - rewrite IH. unfold appendCompName, componentEntry.
    destruct (Component.Lead c); by rewrite <- app_assoc.
Qed.

(** createTemplateData in one piece. *)
Lemma createTemplateData_fields (ticket : Ticket.t) :
  createTemplateData ticket
  = TemplateData.mk
      (Ticket.Summary ticket)
      (Ticket.Description ticket)
      (Status.Name (Ticket.Status ticket))
      (IssueType.Name (Ticket.IssueType ticket))
      (Priority.Name (Ticket.Priority ticket))
      (commaJoined (map componentEntry (Ticket.Components ticket)))
      (commaJoined (Ticket.Labels ticket))
      (match Ticket.Assignee ticket with
       | Some assignee => User.DisplayName assignee
       | None => "Unassigned"
       end)
      (User.DisplayName (Ticket.Reporter ticket)).
Proof.
  unfold createTemplateData, commaJoined, strings_Join.
  destruct (Ticket.Assignee ticket);
    destruct (Ticket.Components ticket) as [|c comps];
    destruct (Ticket.Labels ticket) as [|l labels];
    cbn -[String.concat foldl map]; rewrite ?foldl_appendCompName;
    reflexivity.
Qed.

(** C7.  The projected Assignee is the assignee's display name when the
    ticket has an assignee and the literal [Unassigned] when it has
    none; the projected Reporter is the reporter's display name. *)
Theorem createTemplateData_assignee_reporter (ticket : Ticket.t) :
  (forall assignee : User.t,
      Ticket.Assignee ticket = Some assignee ->
      TemplateData.Assignee (createTemplateData ticket)
      = User.DisplayName assignee) /\
  (Ticket.Assignee ticket = None ->
   TemplateData.Assignee (createTemplateData ticket) = "Unassigned") /\
  TemplateData.Reporter (createTemplateData ticket)
  = User.DisplayName (Ticket.Reporter ticket).
Proof.
  rewrite createTemplateData_fields. simpl.
  split; [|split].
  - by intros assignee ->.
  - by intros ->.
  - reflexivity.
Qed.

(** C10.  The projected Components value is the comma-and-space joined
    list of the entries of the components in source order, an entry
    being the name, or the name followed by the lead in parentheses; a
    ticket without components has the empty string there, and a ticket
    without labels has the empty string as Labels. *)
Theorem createTemplateData_components (ticket : Ticket.t) :
  TemplateData.Components (createTemplateData ticket)
  = commaJoined (map componentEntry (Ticket.Components ticket)) /\
  (Ticket.Components ticket = [] ->
   TemplateData.Components (createTemplateData ticket) = "") /\
  (Ticket.Labels ticket = [] ->
   TemplateData.Labels (createTemplateData ticket) = "").
Proof.
  rewrite createTemplateData_fields. simpl.
  split; [reflexivity|]. split; by intros ->.
Qed.

End projector.

(** * Properties of the flattening *)

Section flatten.

Import prompt blank writes.

Lemma append_nil_r (s : string) : s +:+ "" = s.
Proof.
  induction s as [|c s IH]; [reflexivity|].
  change (String c (s +:+ "") = String c s). by rewrite IH.
Qed.

Lemma append_assoc (s1 s2 s3 : string) :
  (s1 +:+ s2) +:+ s3 = s1 +:+ (s2 +:+ s3).
Proof.
  induction s1 as [|c s1 IH]; [reflexivity|].
  change (String c ((s1 +:+ s2) +:+ s3) = String c (s1 +:+ (s2 +:+ s3))).
  by rewrite IH.
Qed.

(** Appending leaves a string as it was only when nothing is appended. *)
Lemma append_same (s out : string) : s +:+ out = s <-> out = "".
Proof.
  split; [|intros ->; apply append_nil_r].
  intros H. apply (String.app_inj s). rewrite H. symmetry. apply append_nil_r.
Qed.

Lemma append_empty (s1 s2 : string) : s1 +:+ s2 = "" <-> s1 = "" /\ s2 = "".
Proof.
  split; [|by intros [-> ->]].
  destruct s1 as [|c s1]; intros H; [by split|].
  change (String c (s1 +:+ s2) = "") in H. discriminate H.
Qed.

Lemma appendOnly_id : appendOnly (fun b => b).
Proof. intros b. by rewrite append_nil_r. Qed.

Lemma appendOnly_WriteString (s : string) :
  appendOnly (fun b => WriteString b s).
Proof. intros b. reflexivity. Qed.

Lemma appendOnly_compose (f g : Builder -> Builder) :
  appendOnly f -> appendOnly g -> appendOnly (fun b => g (f b)).
Proof.
  intros Hf Hg b.
  rewrite (Hg (f b)), (Hg (f "")), (Hf b). apply append_assoc.
Qed.

Lemma appendOnly_if (c : bool) (f g : Builder -> Builder) :
  appendOnly f -> appendOnly g -> appendOnly (fun b => if c then f b else g b).
Proof. by destruct c. Qed.

Lemma appendOnly_foldl {A : Type} (w : Builder -> A -> Builder) (l : list A) :
  (forall x, appendOnly (fun b => w b x)) ->
  appendOnly (fun b => foldl w b l).
Proof.
  intros Hw. induction l as [|x l IH] using rev_ind.
  - apply appendOnly_id.
  - intros b. rewrite !foldl_app. simpl.
    rewrite (Hw x (foldl w b l)), (Hw x (foldl w "" l)), (IH b).
    apply append_assoc.
Qed.

Lemma appendOnly_writeField (label v : string) :
  appendOnly (fun b => writeField b label v).
Proof.
  unfold writeField.
  apply appendOnly_if; [apply appendOnly_id | apply appendOnly_WriteString].
Qed.

Lemma appendOnly_writeSection (section : POMLSection.t) :
  appendOnly (fun b => writeSection b section).
Proof.
  unfold writeSection. cbv zeta.
  repeat match goal with
         | |- appendOnly (fun b => writeField (@?F b) ?l ?v) =>
             apply (appendOnly_compose F (fun b => writeField b l v));
             [|apply appendOnly_writeField]
         end.
  apply appendOnly_if; [apply appendOnly_id | apply appendOnly_WriteString].
Qed.

Lemma appendOnly_writeRequirement (req : POMLRequirement.t) :
  appendOnly (fun b => writeRequirement b req).
Proof.
  unfold writeRequirement.
  apply appendOnly_if; [apply appendOnly_id | apply appendOnly_WriteString].
Qed.

Lemma appendOnly_writeOutputSection (section : POMLOutputSection.t) :
  appendOnly (fun b => writeOutputSection b section).
Proof.
  unfold writeOutputSection. cbv zeta.
  apply (appendOnly_compose
           (fun b => if String.eqb (POMLOutputSection.Title section) "" then b
                     else WriteString b _)
           (fun b => if String.eqb (POMLOutputSection.Content section) "" then b
                     else WriteString b _));
    (apply appendOnly_if; [apply appendOnly_id | apply appendOnly_WriteString]).
Qed.

Lemma appendOnly_addRole (doc : POMLDocument.t) :
  appendOnly (fun b => addRole b doc).
Proof.
  unfold addRole.
  apply appendOnly_if; [apply appendOnly_id | apply appendOnly_WriteString].
Qed.

Lemma appendOnly_addTask (doc : POMLDocument.t) :
  appendOnly (fun b => addTask b doc).
Proof.
  unfold addTask.
  apply appendOnly_if; [apply appendOnly_id | apply appendOnly_WriteString].
Qed.

Lemma appendOnly_addContext (doc : POMLDocument.t) :
  appendOnly (fun b => addContext b doc).
Proof.
  unfold addContext. cbv zeta.
  apply appendOnly_if; [|apply appendOnly_id].
  apply (appendOnly_compose
           (fun b => foldl writeSection (WriteString b _) _)
           (fun b => WriteString b nl)); [|apply appendOnly_WriteString].
  apply (appendOnly_compose
           (fun b => WriteString b _) (fun b => foldl writeSection b _));
    [apply appendOnly_WriteString|].
  apply appendOnly_foldl, appendOnly_writeSection.
Qed.

Lemma appendOnly_addInstructions (doc : POMLDocument.t) :
  appendOnly (fun b => addInstructions b doc).
Proof.
  unfold addInstructions. cbv zeta.
  apply appendOnly_if; [|apply appendOnly_id].
  apply (appendOnly_compose
           (fun b => foldl writeRequirement (WriteString b _) _)
           (fun b => WriteString b nl)); [|apply appendOnly_WriteString].
  apply (appendOnly_compose
           (fun b => WriteString b _) (fun b => foldl writeRequirement b _));
    [apply appendOnly_WriteString|].
  apply appendOnly_foldl, appendOnly_writeRequirement.
Qed.

Lemma appendOnly_addOutputFormat (doc : POMLDocument.t) :
  appendOnly (fun b => addOutputFormat b doc).
Proof.
  unfold addOutputFormat. cbv zeta.
  apply appendOnly_if; [|apply appendOnly_id].
  apply (appendOnly_compose
           (fun b => WriteString b _) (fun b => foldl writeOutputSection b _));
    [apply appendOnly_WriteString|].
  apply appendOnly_foldl, appendOnly_writeOutputSection.
Qed.

Lemma appendOnly_addStyle (doc : POMLDocument.t) :
  appendOnly (fun b => addStyle b doc).
Proof.
  unfold addStyle. cbv zeta.
  apply appendOnly_if; [apply appendOnly_id|].
  apply (appendOnly_compose
           (fun b => WriteString b _) (fun b => WriteString b _));
    apply appendOnly_WriteString.
Qed.

(** The text is the six blocks one after the other. *)
Lemma convertPOMLToPrompt_blocks (doc : POMLDocument.t) :
  convertPOMLToPrompt doc
  = addRole "" doc +:+ addTask "" doc +:+ addContext "" doc +:+
    addInstructions "" doc +:+ addOutputFormat "" doc +:+ addStyle "" doc.
Proof.
  unfold convertPOMLToPrompt. cbv zeta.
  rewrite (appendOnly_addStyle doc (addOutputFormat _ _)),
    (appendOnly_addOutputFormat doc (addInstructions _ _)),
    (appendOnly_addInstructions doc (addContext _ _)),
    (appendOnly_addContext doc (addTask _ _)),
    (appendOnly_addTask doc (addRole _ _)).
  by rewrite !append_assoc.
Qed.


Lemma length_zero_nil {A : Type} (l : list A) :
  Nat.ltb 0 (length l) = false <-> l = [].
Proof. destruct l; simpl; split; (reflexivity || discriminate). Qed.




(** With at least one entry the heading line is written, whatever the
    entries hold. *)
Lemma addContext_heading (doc : POMLDocument.t) :
  POMLContext.Sections (POMLDocument.Context doc) <> [] ->
  addContext "" doc
  = ("Context:" +:+ nl) +:+
    foldl writeSection "" (POMLContext.Sections (POMLDocument.Context doc)) +:+
    nl.
Proof.
  intros Hne. unfold addContext. cbv zeta.
  destruct (POMLContext.Sections (POMLDocument.Context doc)) as [|x l];
    [done|].
  change (Nat.ltb 0 (length (x :: l))) with true. cbv iota.
  rewrite (appendOnly_foldl writeSection (x :: l) appendOnly_writeSection).
  unfold WriteString. by rewrite append_assoc.
Qed.

Lemma addInstructions_heading (doc : POMLDocument.t) :
  POMLDocument.Instructions doc <> [] ->
  addInstructions "" doc
  = ("Instructions:" +:+ nl) +:+
    foldl writeRequirement "" (POMLDocument.Instructions doc) +:+ nl.
Proof.
  intros Hne. unfold addInstructions.
  destruct (POMLDocument.Instructions doc) as [|x l]; [done|].
  change (Nat.ltb 0 (length (x :: l))) with true. cbv iota zeta.
  rewrite (appendOnly_foldl writeRequirement (x :: l) appendOnly_writeRequirement).
  unfold WriteString. by rewrite append_assoc.
Qed.

Lemma addOutputFormat_heading (doc : POMLDocument.t) :
  POMLOutputFormat.Sections (POMLDocument.OutputFormat doc) <> [] ->
  addOutputFormat "" doc
  = ("Please provide your response in the following format:" +:+ nl +:+ nl) +:+
    foldl writeOutputSection ""
      (POMLOutputFormat.Sections (POMLDocument.OutputFormat doc)).
Proof.
  intros Hne. unfold addOutputFormat. cbv zeta.
  destruct (POMLOutputFormat.Sections (POMLDocument.OutputFormat doc))
    as [|x l]; [done|].
  change (Nat.ltb 0 (length (x :: l))) with true. cbv iota.
  by rewrite (appendOnly_foldl writeOutputSection (x :: l)
                appendOnly_writeOutputSection).
Qed.




(** C3, as the specification states it, fails: the text given there
    lacks the line feed that closes the Context block. *)
Lemma planDocument_text_of_spec_differs :
  convertPOMLToPrompt (scenario.planDocument "ticket-information")
  <> scenario.planTextOfSpec.
Proof. vm_compute. discriminate. Qed.

(** C3, amended.  Flattening the document with no role, task
    [Plan the fix], one context section titled [LOGIN-1] and nothing
    else yields the Task block, the Context heading, the ticket line and
    the line feed that closes the Context block; no Role, Instructions,
    Output or Style block. *)
Theorem planDocument_text (name : string) :
  convertPOMLToPrompt (scenario.planDocument name)
  = "Task: Plan the fix" +:+ nl +:+ nl +:+ "Context:" +:+ nl +:+ nl +:+
    "Ticket: LOGIN-1" +:+ nl +:+ nl.
Proof. reflexivity. Qed.



(** The text of a sequence of entries is the texts of the entries, in
    the order of the sequence. *)
Lemma concat_cons (x : string) (l : list string) :
  String.concat "" (x :: l) = x +:+ String.concat "" l.
Proof. destruct l; simpl; [by rewrite append_nil_r | reflexivity]. Qed.

Lemma foldl_in_order {A : Type} (w : Builder -> A -> Builder) (l : list A) :
  (forall x, appendOnly (fun b => w b x)) ->
  foldl w "" l = String.concat "" (map (w "") l).
Proof.
  intros Hw. induction l as [|x l IH]; [reflexivity|].
  cbn [foldl map]. rewrite concat_cons, <- IH.
  apply (appendOnly_foldl w l Hw).
Qed.

End flatten.


(** * Properties of the renderers *)

Section rendering.

Import jira prompt render references.

(** The conditional walks the list its guard selects. *)
Lemma walk_IfNode (dot : TemplateData.t) (pipe : string)
    (list elseList : list template.Node) (wr : string) :
  template.walk dot (template.IfNode pipe list elseList) wr
  = match template.evalField dot pipe with
    | inl err => (wr, Some err)
    | inr v =>
        template.walkList dot (if template.isTrue v then list else elseList) wr
    end.
Proof.
  simpl. destruct (template.evalField dot pipe) as [err|v]; [reflexivity|].
  destruct (template.isTrue v).
  - revert wr. induction list as [|n rest IH]; intros wr; simpl; [reflexivity|].
    destruct (template.walk dot n wr) as [wr' [err|]]; [reflexivity|apply IH].
  - revert wr. induction elseList as [|n rest IH]; intros wr; simpl;
      [reflexivity|].
    destruct (template.walk dot n wr) as [wr' [err|]]; [reflexivity|apply IH].
Qed.




Lemma known_evalField (dot : TemplateData.t) (name : string) :
  unknownField name = false -> exists v, template.evalField dot name = inr v.
Proof.
  unfold unknownField, template.knownFields, template.evalField.
  cbn [existsb].
  repeat (destruct (String.eqb name _); [eauto|]).
  discriminate.
Qed.





Lemma createTemplateData_Summary (ticket : Ticket.t) :
  TemplateData.Summary (createTemplateData ticket) = Ticket.Summary ticket.
Proof. by rewrite createTemplateData_fields. Qed.

(** C9.  A Markdown template that consists of the Summary marker alone
    renders to the ticket's summary and nothing else, through
    LoadAndRenderTemplate and through its caller in main.go. *)
Theorem summary_marker_renders_summary
    (fs : Files) (library : Engine) (templatePath : string)
    (ticket : Ticket.t) :
  os_ReadFile fs templatePath = inr "{{.Summary}}" ->
  LoadAndRenderTemplate fs (goTemplate library) templatePath ticket
  = (Ticket.Summary ticket, None) /\
  (templatePath <> "" ->
   runJiraGenerator fs (goTemplate library) templatePath ticket
   = (Ticket.Summary ticket, None)).
Proof.
  intros Hread.
  assert (LoadAndRenderTemplate fs (goTemplate library) templatePath ticket
          = (Ticket.Summary ticket, None)) as Hrender.
  { unfold LoadAndRenderTemplate. rewrite Hread.
    cbn [template_Parse template_Execute goTemplate].
    change (template.Parse "{{.Summary}}")
      with (template.Parsed [template.FieldNode "Summary"]).
    cbv beta iota. unfold template.Execute. cbn.
    by rewrite createTemplateData_Summary. }
  split; [exact Hrender|].
  intros Hpath. unfold runJiraGenerator.
  by destruct (String.eqb_spec templatePath "").
Qed.

End rendering.


(** C9 at a file that holds the Summary marker. *)
Lemma summary_marker_renders_summary_witness :
  render.LoadAndRenderTemplate
    (scenario.files [("prompts/summary.md", "{{.Summary}}")])
    (render.goTemplate scenario.noLibrary) "prompts/summary.md"
    scenario.loginTicket
  = ("Fix login bug", None).
Proof.
  exact (proj1 (summary_marker_renders_summary
                  (scenario.files [("prompts/summary.md", "{{.Summary}}")])
                  scenario.noLibrary
                  "prompts/summary.md" scenario.loginTicket eq_refl)).
Defined.

(** * Properties of the POML pipeline and of the entry point *)

Section pipeline.

Import jira prompt render writes.

(** The three errors of the pipeline after the file has been read are
    pairwise different values with pairwise different messages,
    whatever the libraries reported. *)
Lemma pipeline_errors_differ (e1 e2 : error) :
  Errorf_w "failed to parse POML XML: " e2
  <> Errorf_w "failed to parse POML template: " e1 /\
  Errorf_w "failed to parse POML XML: " e2
  <> Errorf_w "failed to execute POML template: " e1 /\
  Error (Errorf_w "failed to parse POML XML: " e2)
  <> Error (Errorf_w "failed to parse POML template: " e1) /\
  Error (Errorf_w "failed to parse POML XML: " e2)
  <> Error (Errorf_w "failed to execute POML template: " e1).
Proof.
  unfold Errorf_w, Error.
  repeat split; intros H; vm_compute in H; discriminate H.
Qed.

(** C5.  Once the template file has been read: an error of
    template.Parse or of Execute makes LoadAndRenderPOMLTemplate return
    that error, wrapped, with the empty text, whatever the XML decoder
    is, so that the decoder has no part in the result; an error of the
    decoder is returned wrapped under another message, so that it is a
    different value with a different message than either error of the
    first phase; and every error comes with the empty text. *)
Theorem poml_pipeline_errors
    (fs : Files) (engine : Engine) (templatePath : string)
    (ticket : Ticket.t) (content : string) :
  os_ReadFile fs templatePath = inr content ->
  (forall err,
      template_Parse engine "poml" content = inl err ->
      forall decoder : Decoder,
        LoadAndRenderPOMLTemplate fs engine decoder templatePath ticket
        = ("", Some (Errorf_w "failed to parse POML template: " err))) /\
  (forall tmpl buf err,
      template_Parse engine "poml" content = inr tmpl ->
      template_Execute engine tmpl (createTemplateData ticket)
      = (buf, Some err) ->
      forall decoder : Decoder,
        LoadAndRenderPOMLTemplate fs engine decoder templatePath ticket
        = ("", Some (Errorf_w "failed to execute POML template: " err))) /\
  (forall tmpl buf err (decoder : Decoder),
      template_Parse engine "poml" content = inr tmpl ->
      template_Execute engine tmpl (createTemplateData ticket) = (buf, None) ->
      decoder buf = inl err ->
      LoadAndRenderPOMLTemplate fs engine decoder templatePath ticket
      = ("", Some (Errorf_w "failed to parse POML XML: " err))) /\
  (forall e1 e2 : error,
      Errorf_w "failed to parse POML XML: " e2
      <> Errorf_w "failed to parse POML template: " e1 /\
      Errorf_w "failed to parse POML XML: " e2
      <> Errorf_w "failed to execute POML template: " e1 /\
      Error (Errorf_w "failed to parse POML XML: " e2)
      <> Error (Errorf_w "failed to parse POML template: " e1) /\
      Error (Errorf_w "failed to parse POML XML: " e2)
      <> Error (Errorf_w "failed to execute POML template: " e1)) /\
  (forall (decoder : Decoder) (text : string) (err : error),
      LoadAndRenderPOMLTemplate fs engine decoder templatePath ticket
      = (text, Some err) ->
      text = "").
Proof.
  intros Hread. unfold LoadAndRenderPOMLTemplate. rewrite Hread.
  split; [|split; [|split; [|split]]].
  - intros err ->. reflexivity.
  - intros tmpl buf err -> ->. reflexivity.
  - intros tmpl buf err decoder -> -> ->. reflexivity.
  - apply pipeline_errors_differ.
  - intros decoder text err.
    destruct (template_Parse engine "poml" content) as [e|tmpl];
      [by intros [= <- _]|].
    destruct (template_Execute engine tmpl (createTemplateData ticket))
      as [buf [e|]]; [by intros [= <- _]|].
    destruct (decoder buf) as [e|doc]; [by intros [= <- _]|].
    intros [=].
Qed.

Lemma headNot_append (c : ascii) (s1 s2 : string) :
  headNot c s1 -> headNot c s2 -> headNot c (s1 +:+ s2).
Proof. destruct s1; [by intros|by intros]. Qed.

(** No flattened text starts with the byte that opens an element. *)
Lemma convertPOMLToPrompt_headNot (doc : POMLDocument.t) :
  headNot "<" (convertPOMLToPrompt doc).
Proof.
  rewrite convertPOMLToPrompt_blocks.
  repeat apply headNot_append.
  - unfold addRole. by destruct (String.eqb _ "").
  - unfold addTask. by destruct (String.eqb _ "").
  - destruct (POMLContext.Sections (POMLDocument.Context doc)) as [|x l] eqn:E.
    + unfold addContext. by rewrite E.
    + rewrite addContext_heading by (by rewrite E). discriminate.
  - destruct (POMLDocument.Instructions doc) as [|x l] eqn:E.
    + unfold addInstructions. by rewrite E.
    + rewrite addInstructions_heading by (by rewrite E). discriminate.
  - destruct (POMLOutputFormat.Sections (POMLDocument.OutputFormat doc))
      as [|x l] eqn:E.
    + unfold addOutputFormat. by rewrite E.
    + rewrite addOutputFormat_heading by (by rewrite E). discriminate.
  - unfold addStyle. cbv zeta. by destruct (String.eqb _ "").
Qed.

(** C2, on the code.  runJiraGenerator hands every template path to
    LoadAndRenderTemplate, the Markdown renderer: nothing in it looks
    at the kind of the template.  For the POML template of the README
    stored under a [.poml] path the prompt is the markup itself with
    the summary filled in, a text that convertPOMLToPrompt gives for no
    document. *)
Theorem runJiraGenerator_renders_poml_as_markdown :
  (forall (fs : Files) (engine : Engine) (templatePath : string)
          (ticket : Ticket.t),
      runJiraGenerator fs engine templatePath ticket
      = LoadAndRenderTemplate fs engine
          (if String.eqb templatePath "" then GetDefaultTemplatePath
           else templatePath) ticket) /\
  (forall library : Engine,
      runJiraGenerator
        (scenario.files
           [("prompts/implementation-plan.poml", scenario.planTemplate)])
        (goTemplate library) "prompts/implementation-plan.poml"
        scenario.loginTicket
      = ("<poml><task>Plan Fix login bug</task></poml>", None)) /\
  (forall doc : POMLDocument.t,
      convertPOMLToPrompt doc
      <> "<poml><task>Plan Fix login bug</task></poml>").
Proof.
  split; [reflexivity|]. split; [intros library; reflexivity|].
  intros doc H. pose proof (convertPOMLToPrompt_headNot doc) as Hhead.
  rewrite H in Hhead. by apply Hhead.
Qed.

End pipeline.

(** C5 at the POML template of the README and a decoder that rejects the
    markup: the error of the second phase, and no text. *)
Lemma poml_pipeline_errors_witness :
  render.LoadAndRenderPOMLTemplate
    (scenario.files [("prompts/plan.poml", scenario.planTemplate)])
    (render.goTemplate scenario.noLibrary) scenario.noXML "prompts/plan.poml"
    scenario.loginTicket
  = ("", Some (Errorf_w "failed to parse POML XML: "
                 (libError "encoding/xml" "XML syntax error"))).
Proof.
  destruct (poml_pipeline_errors
              (scenario.files [("prompts/plan.poml", scenario.planTemplate)])
              (render.goTemplate scenario.noLibrary) "prompts/plan.poml"
              scenario.loginTicket
              scenario.planTemplate eq_refl) as (_ & _ & Hxml & _).
  apply (Hxml (inl [template.TextNode "<poml><task>Plan ";
                    template.FieldNode "Summary";
                    template.TextNode "</task></poml>"])
              "<poml><task>Plan Fix login bug</task></poml>");
    reflexivity.
Defined.

(** C7 at the ticket of the login scenario, which has no assignee. *)
Lemma createTemplateData_assignee_reporter_witness :
  prompt.TemplateData.Assignee (prompt.createTemplateData scenario.loginTicket)
  = "Unassigned".
Proof.
  destruct (createTemplateData_assignee_reporter scenario.loginTicket)
    as (_ & Hnone & _).
  apply Hnone. reflexivity.
Defined.

(** C10 at the ticket of the login scenario, which has no components. *)
Lemma createTemplateData_components_witness :
  prompt.TemplateData.Components (prompt.createTemplateData scenario.loginTicket)
  = "".
Proof.
  destruct (createTemplateData_components scenario.loginTicket)
    as (_ & Hnone & _).
  apply Hnone. reflexivity.
Defined.

(** * Further properties of the normalizer *)

Section normalizerMore.

Import jira prompt fieldsOf projection more.

Variable time_Parse : string -> string -> error + Time.t.

Lemma omap_cons {A B : Type} (f : A -> option B) (x : A) (l : list A) :
  omap f (x :: l)
  = match f x with
    | Some y => y :: omap f l
    | None => omap f l
    end.
Proof. reflexivity. Qed.

Lemma omap_assertString_map (ss : list string) :
  omap assertString (map JString ss) = ss.
Proof.
  induction ss as [|s ss IH]; [reflexivity|].
  change (s :: omap assertString (map JString ss) = s :: ss). by rewrite IH.
Qed.

Lemma length_omap {A B : Type} (f : A -> option B) (l : list A) :
  length (omap f l) <= length l.
Proof.
  induction l as [|x l IH]; [reflexivity|].
  change (length (match f x with
                  | Some y => y :: omap f l
                  | None => omap f l
                  end) <= S (length l)).
  destruct (f x); simpl; lia.
Qed.

(** X1.  When the labels value is an array, the ticket's labels are the
    strings of the array in their order; the other elements are skipped,
    so that there are at most as many labels as elements, and an array of
    strings only is taken over as it is. *)
Theorem parseTicket_labels (resp : JiraResponse.t) (l : list JValue) :
  index (JiraResponse.Fields resp) "labels" = JArray l ->
  Ticket.Labels (fst (parseTicket time_Parse resp)) = omap assertString l /\
  length (Ticket.Labels (fst (parseTicket time_Parse resp))) <= length l /\
  (forall ss : list string,
      l = map JString ss ->
      Ticket.Labels (fst (parseTicket time_Parse resp)) = ss).
Proof.
  intros Hl. rewrite parseTicket_fields. simpl. rewrite Hl. simpl.
  split; [reflexivity|]. split; [apply length_omap|].
  intros ss ->. apply omap_assertString_map.
Qed.

Lemma map_Name_componentOf (l : list JValue) :
  map Component.Name (omap componentOf l) = omap componentName l.
Proof.
  induction l as [|v l IH]; [reflexivity|].
  rewrite !omap_cons. unfold componentOf at 1, componentName at 1.
  destruct (assertMap v); [|exact IH].
  cbn [map Component.Name]. by rewrite IH.
Qed.

(** X2.  When the components value is an array, the ticket's components
    come from the elements that are objects, in their order, named by
    the [name] key of each (empty when that key holds no string); the
    other elements are skipped.  A component has a lead exactly when the
    [lead] key of its object holds an object. *)
Theorem parseTicket_components (resp : JiraResponse.t) (l : list JValue) :
  index (JiraResponse.Fields resp) "components" = JArray l ->
  map Component.Name (Ticket.Components (fst (parseTicket time_Parse resp)))
  = omap componentName l /\
  length (Ticket.Components (fst (parseTicket time_Parse resp))) <= length l /\
  (forall ms : list (gmap string JValue),
      l = map JObject ms ->
      Ticket.Components (fst (parseTicket time_Parse resp))
      = map (fun m =>
               Component.mk
                 (getStringFromMap (Some m) "id")
                 (getStringFromMap (Some m) "name")
                 (getStringFromMap (Some m) "description")
                 (match index (Some m) "lead" with
                  | JObject lead => Some (parseUser (Some lead))
                  | _ => None
                  end)
                 (getStringFromMap (Some m) "self")) ms).
Proof.
  intros Hl. rewrite parseTicket_fields. simpl. rewrite Hl. simpl.
  split; [apply map_Name_componentOf|]. split; [apply length_omap|].
  intros ms ->. clear Hl.
  induction ms as [|m ms IH]; [reflexivity|].
  cbn [map]. rewrite omap_cons, IH. unfold componentOf at 1.
  cbn [assertMap]. f_equal. f_equal. unfold index.
  by destruct (default JNull (m !! "lead")).
Qed.

(** X3.  parseTicket reads the raw field map at its twelve keys only: two
    responses with the same id and key whose field maps agree at those
    keys give the same ticket, whatever else the maps hold. *)
Theorem parseTicket_known_keys_only (r1 r2 : JiraResponse.t) :
  JiraResponse.ID r1 = JiraResponse.ID r2 ->
  JiraResponse.Key r1 = JiraResponse.Key r2 ->
  (forall key, In key knownKeys ->
               index (JiraResponse.Fields r1) key
               = index (JiraResponse.Fields r2) key) ->
  parseTicket time_Parse r1 = parseTicket time_Parse r2.
Proof.
  intros Hid Hkey Hfields. rewrite !parseTicket_fields.
  unfold idNameOf, instantOf. rewrite Hid, Hkey.
  rewrite !(Hfields _) by (simpl; tauto). reflexivity.
Qed.

(** X4.  From the raw field map to the rendering context: an assignee
    value that is not an object (absent, null, a string) gives the
    Assignee [Unassigned]; an assignee object gives the string under its
    [displayName] key, the empty string when there is none. *)
Theorem assignee_from_raw_map (resp : JiraResponse.t) :
  ((forall m, index (JiraResponse.Fields resp) "assignee" <> JObject m) ->
   TemplateData.Assignee
     (createTemplateData (fst (parseTicket time_Parse resp)))
   = "Unassigned") /\
  (forall m,
      index (JiraResponse.Fields resp) "assignee" = JObject m ->
      TemplateData.Assignee
        (createTemplateData (fst (parseTicket time_Parse resp)))
      = getStringFromMap (Some m) "displayName").
Proof.
  rewrite createTemplateData_fields, parseTicket_fields. simpl. split.
  - intros Hno.
    destruct (index (JiraResponse.Fields resp) "assignee") as [| | | | |m|];
      try reflexivity.
    by destruct (Hno m).
  - by intros m ->.
Qed.

(** X5.  From the raw field map to the rendering context: the Labels
    value is the strings of the labels array joined by a comma and a
    space, and the empty string when the labels value is not an array. *)
Theorem labels_from_raw_map (resp : JiraResponse.t) :
  (forall l,
      index (JiraResponse.Fields resp) "labels" = JArray l ->
      TemplateData.Labels
        (createTemplateData (fst (parseTicket time_Parse resp)))
      = commaJoined (omap assertString l)) /\
  (assertSlice (index (JiraResponse.Fields resp) "labels") = None ->
   TemplateData.Labels
     (createTemplateData (fst (parseTicket time_Parse resp)))
   = "").
Proof.
  rewrite createTemplateData_fields, parseTicket_fields. simpl. split.
  - by intros l ->.
  - by intros ->.
Qed.

End normalizerMore.

(** * Properties of the client *)

Section clientFacts.

Import jira prompt projection jiraerrors client.

Lemma commaJoined_cons (x : string) (l : list string) :
  commaJoined (x :: l)
  = x +:+ String.concat "" (map (fun y => ", " +:+ y) l).
Proof.
  unfold commaJoined. revert x.
  induction l as [|y l IH]; intros x; [symmetry; apply append_nil_r|].
  change (x +:+ ", " +:+ String.concat ", " (y :: l)
          = x +:+ String.concat "" ((", " +:+ y) :: map (fun y => ", " +:+ y) l)).
  rewrite IH, concat_cons. by rewrite append_assoc.
Qed.

(** The loop of GetTicketSummary after its first iteration. *)
Lemma writeComponents_later (comps : list Component.t) (i : nat) (b : string) :
  writeComponents (S i) b comps
  = b +:+ String.concat "" (map (fun y => ", " +:+ y) (map componentEntry comps)).
Proof.
  revert i b. induction comps as [|c comps IH]; intros i b.
  - symmetry. apply append_nil_r.
  - cbn [writeComponents map]. rewrite IH, concat_cons.
    change (Nat.ltb 0 (S i)) with true. cbv iota.
    unfold WriteString, componentEntry.
    destruct (Component.Lead c); by rewrite !append_assoc.
Qed.

Lemma writeComponents_first (comps : list Component.t) (b : string) :
  writeComponents 0 b comps = b +:+ commaJoined (map componentEntry comps).
Proof.
  destruct comps as [|c comps]; [symmetry; apply append_nil_r|].
  cbn [writeComponents map]. rewrite writeComponents_later, commaJoined_cons.
  change (Nat.ltb 0 0) with false. cbv iota.
  unfold WriteString, componentEntry.
  destruct (Component.Lead c); by rewrite !append_assoc.
Qed.

(** X6.  GetTicketSummary is four lines, the ticket line, the status
    line, the assignee and the reporter, followed by a Components line
    when the ticket has components and a Labels line when it has labels;
    assignee, reporter, components and labels read there as they do in
    the rendering context of createTemplateData, the separators written
    by the loop included. *)
Theorem GetTicketSummary_lines (t : Ticket.t) :
  GetTicketSummary t
  = ("Ticket: " +:+ Ticket.Key t +:+ " - " +:+ Ticket.Summary t +:+ nl) +:+
    ("Status: " +:+ Status.Name (Ticket.Status t) +:+
     " | Type: " +:+ IssueType.Name (Ticket.IssueType t) +:+
     " | Priority: " +:+ Priority.Name (Ticket.Priority t) +:+ nl) +:+
    ("Assignee: " +:+ TemplateData.Assignee (createTemplateData t) +:+ nl) +:+
    ("Reporter: " +:+ TemplateData.Reporter (createTemplateData t) +:+ nl) +:+
    match Ticket.Components t with
    | [] => ""
    | _ :: _ =>
        "Components: " +:+ TemplateData.Components (createTemplateData t) +:+ nl
    end +:+
    match Ticket.Labels t with
    | [] => ""
    | _ :: _ => "Labels: " +:+ TemplateData.Labels (createTemplateData t) +:+ nl
    end.
Proof.
  rewrite createTemplateData_fields.
  cbn [TemplateData.Assignee TemplateData.Reporter TemplateData.Components
       TemplateData.Labels].
  unfold GetTicketSummary, strings_Join, commaJoined. cbv zeta.
  destruct (Ticket.Assignee t) as [a|];
    destruct (Ticket.Components t) as [|c comps];
    destruct (Ticket.Labels t) as [|l labels];
    cbn [length Nat.ltb Nat.leb];
    rewrite ?writeComponents_first; unfold WriteString, commaJoined;
    rewrite ?append_assoc, ?append_nil_r; reflexivity.
Qed.

End clientFacts.

Section requestFacts.

Import jira jiraerrors client.

Variable url_Parse : string -> option error.
Variable json_Unmarshal : string -> error + JiraResponse.t.
Variable time_Parse : string -> string -> error + Time.t.

(** X7.  When the server answers the GET of the issue URL with [resp]:
    status 404 gives the TicketNotFoundError of the ticket id, the one
    error IsTicketNotFound recognises; any other status than 200 gives
    the APIError with that status and whatever of the body could be read;
    status 200 with a body that is read and decoded gives the ticket of
    parseTicket and no error; status 200 with a body that cannot be read
    or decoded gives an error that is not a not-found error. *)
Theorem GetTicket_by_status
    (Client_Do : http.Client -> http.Request -> error + http.Response)
    (c : Client) (ticketID : string) (resp : http.Response) :
  url_Parse (BaseURL c +:+ "/rest/api/2/issue/" +:+ ticketID) = None ->
  (forall req,
      http.Method req = "GET" ->
      http.URL req = BaseURL c +:+ "/rest/api/2/issue/" +:+ ticketID ->
      Client_Do (HTTPClient c) req = inr resp) ->
  let result :=
    GetTicket url_Parse Client_Do json_Unmarshal time_Parse c ticketID in
  (http.StatusCode resp = 404%Z ->
   result = (None, Some (TicketNotFoundError ticketID)) /\
   IsTicketNotFound (snd result) = true) /\
  (http.StatusCode resp <> 404%Z -> http.StatusCode resp <> 200%Z ->
   result = (None, Some (APIError (http.StatusCode resp) (fst (http.Body resp)))) /\
   IsTicketNotFound (snd result) = false) /\
  (forall body jiraResp,
      http.StatusCode resp = 200%Z ->
      http.Body resp = (body, None) ->
      json_Unmarshal body = inr jiraResp ->
      result = (Some (fst (parseTicket time_Parse jiraResp)), None)) /\
  (http.StatusCode resp = 200%Z ->
   (snd (http.Body resp) <> None \/
    exists err, json_Unmarshal (fst (http.Body resp)) = inl err) ->
   fst result = None /\ snd result <> None /\
   IsTicketNotFound (snd result) = false).
Proof.
  intros Hurl Hdo result. subst result.
  unfold GetTicket, http_NewRequest. rewrite Hurl.
  rewrite Hdo; [| by destruct (negb _) | by destruct (negb _)].
  unfold http.StatusNotFound, http.StatusOK.
  split; [|split; [|split]].
  - intros ->. by split.
  - intros H404 H200.
    destruct (Z.eqb_spec (http.StatusCode resp) 404); [done|].
    destruct (Z.eqb_spec (http.StatusCode resp) 200); [done|]. by split.
  - intros body jiraResp -> -> ->. reflexivity.
  - intros -> Hbad. cbn [Z.eqb Pos.eqb negb].
    destruct (http.Body resp) as [body [err|]]; [by repeat split|].
    destruct Hbad as [Hbad|[err Hbad]]; [done|].
    cbn in Hbad. rewrite Hbad. by repeat split.
Qed.

(** X8.  GetTicket returns a ticket or an error, never both and never
    neither, whatever the network and the decoders answer. *)
Theorem GetTicket_ticket_or_error
    (Client_Do : http.Client -> http.Request -> error + http.Response)
    (c : Client) (ticketID : string) :
  let result :=
    GetTicket url_Parse Client_Do json_Unmarshal time_Parse c ticketID in
  (exists ticket, result = (Some ticket, None)) \/
  (exists err, result = (None, Some err)).
Proof.
  unfold GetTicket. cbv zeta.
  destruct (http_NewRequest url_Parse _ _) as [err|req]; [eauto|].
  destruct (Client_Do _ _) as [err|resp]; [eauto|].
  destruct (Z.eqb _ http.StatusNotFound); [eauto|].
  destruct (negb _); [eauto|].
  destruct (http.Body resp) as [body [err|]]; [eauto|].
  destruct (json_Unmarshal body) as [err|jiraResp]; [eauto|].
  rewrite parseTicket_fields. eauto.
Qed.

(** X9.  GetTicket sends one request and its result is a function of the
    answer to it.  The request is a GET of the issue URL under the
    client's base URL that accepts JSON, with the header
    [Authorization: Bearer <token>] when the client has a token and
    without an Authorization header when it has none.  When the network
    fails on that request the error is returned wrapped; when it answers,
    the status and the body of the answer decide: 404 is the not-found
    error, another status than 200 the API error, and 200 the decoded
    ticket or the error of reading or decoding the body. *)
Theorem GetTicket_request (c : Client) (ticketID : string) :
  url_Parse (BaseURL c +:+ "/rest/api/2/issue/" +:+ ticketID) = None ->
  exists req : http.Request,
    http.Method req = "GET" /\
    http.URL req = BaseURL c +:+ "/rest/api/2/issue/" +:+ ticketID /\
    http.Header req !! "Accept" = Some ["application/json"] /\
    http.Header req !! "Content-Type" = Some ["application/json"] /\
    (token c = "" -> http.Header req !! "Authorization" = None) /\
    (token c <> "" ->
     http.Header req !! "Authorization" = Some ["Bearer " +:+ token c]) /\
    (forall Client_Do : http.Client -> http.Request -> error + http.Response,
        GetTicket url_Parse Client_Do json_Unmarshal time_Parse c ticketID
        = match Client_Do (HTTPClient c) req with
          | inl err =>
              (None,
               Some (fmtError (Errorf_w "failed to execute request: " err)))
          | inr resp =>
              if Z.eqb (http.StatusCode resp) 404
              then (None, Some (TicketNotFoundError ticketID))
              else if negb (Z.eqb (http.StatusCode resp) 200)
              then (None,
                    Some (APIError (http.StatusCode resp)
                            (fst (http.Body resp))))
              else
                match http.Body resp with
                | (_, Some err) =>
                    (None,
                     Some (fmtError
                             (Errorf_w "failed to read response body: " err)))
                | (body, None) =>
                    match json_Unmarshal body with
                    | inl err =>
                        (None,
                         Some (fmtError
                                 (Errorf_w "failed to unmarshal response: "
                                    err)))
                    | inr jiraResp =>
                        (Some (fst (parseTicket time_Parse jiraResp)), None)
                    end
                end
          end).
Proof.
  intros Hurl. unfold GetTicket, http_NewRequest. rewrite Hurl. cbv zeta.
  set (accepting :=
         http.Header_Set
           (http.Header_Set
              (http.mkRequest "GET"
                 (BaseURL c +:+ "/rest/api/2/issue/" +:+ ticketID) ∅)
              "Accept" "application/json")
           "Content-Type" "application/json").
  exists (if negb (String.eqb (token c) "")
          then http.Header_Set accepting "Authorization" ("Bearer " +:+ token c)
          else accepting).
  split; [by destruct (negb _)|]. split; [by destruct (negb _)|].
  split; [by destruct (negb _)|]. split; [by destruct (negb _)|].
  split; [|split].
  - intros ->. reflexivity.
  - intros Hne. destruct (String.eqb_spec (token c) ""); [done|].
    apply lookup_insert_eq.
  - intros Client_Do.
    destruct (Client_Do _ _) as [err|resp]; [reflexivity|].
    unfold http.StatusNotFound, http.StatusOK.
    destruct (Z.eqb (http.StatusCode resp) 404); [reflexivity|].
    destruct (negb _); [reflexivity|].
    destruct (http.Body resp) as [body [err|]]; [reflexivity|].
    destruct (json_Unmarshal body) as [err|jiraResp]; reflexivity.
Qed.

(** X10.  TestAuthentication without a token fails before any request is
    made.  With a token, when the server answers the GET of
    [/rest/api/2/myself]: status 401 is the invalid-token error, status
    200 is success, and any other status is an error whose message
    carries the status and the body. *)
Theorem TestAuthentication_by_status
    (Client_Do : http.Client -> http.Request -> error + http.Response)
    (c : Client) :
  (token c = "" ->
   TestAuthentication url_Parse Client_Do c
   = Some (fmtError (libError "fmt" "no authentication token provided"))) /\
  (forall resp,
      token c <> "" ->
      url_Parse (BaseURL c +:+ "/rest/api/2/myself") = None ->
      (forall req,
          http.URL req = BaseURL c +:+ "/rest/api/2/myself" ->
          http.Header req !! "Authorization" = Some ["Bearer " +:+ token c] ->
          Client_Do (HTTPClient c) req = inr resp) ->
      (http.StatusCode resp = 401%Z ->
       TestAuthentication url_Parse Client_Do c
       = Some (fmtError (libError "fmt" "authentication failed: invalid token"))) /\
      (http.StatusCode resp = 200%Z ->
       TestAuthentication url_Parse Client_Do c = None) /\
      (http.StatusCode resp <> 401%Z -> http.StatusCode resp <> 200%Z ->
       option_map jiraerrors.Error (TestAuthentication url_Parse Client_Do c)
       = Some ("authentication test failed with status " +:+
               itoa (http.StatusCode resp) +:+ ": " +:+ fst (http.Body resp)))).
Proof.
  unfold TestAuthentication, http_NewRequest. split.
  - intros ->. reflexivity.
  - intros resp Htoken Hurl Hdo.
    destruct (String.eqb_spec (token c) ""); [done|].
    rewrite Hurl. cbv zeta.
    rewrite Hdo; [|reflexivity|].
    2: { simpl. apply lookup_insert_eq. }
    unfold http.StatusUnauthorized, http.StatusOK.
    split; [|split].
    + intros ->. reflexivity.
    + intros ->. reflexivity.
    + intros H401 H200.
      destruct (Z.eqb_spec (http.StatusCode resp) 401); [done|].
      destruct (Z.eqb_spec (http.StatusCode resp) 200); [done|].
      reflexivity.
Qed.

End requestFacts.

(** X11.  NewClient without options is the client of issues.redhat.com
    with a timeout of thirty seconds and no token.  Of the options given,
    a WithBaseURL or WithToken at the end decides its field, WithToken
    leaves the base URL and WithBaseURL leaves the token as the options
    before it made them, and neither touches the timeout. *)
Theorem NewClient_options (opts : list client.ClientOption) (value : string) :
  client.NewClient []
  = client.mkClient "https://issues.redhat.com"
      (http.mkClient 30000000000) "" /\
  client.BaseURL (client.NewClient (opts ++ [client.WithBaseURL value])) = value /\
  client.token (client.NewClient (opts ++ [client.WithToken value])) = value /\
  client.BaseURL (client.NewClient (opts ++ [client.WithToken value]))
  = client.BaseURL (client.NewClient opts) /\
  client.token (client.NewClient (opts ++ [client.WithBaseURL value]))
  = client.token (client.NewClient opts) /\
  client.HTTPClient (client.NewClient (opts ++ [client.WithToken value]))
  = client.HTTPClient (client.NewClient opts) /\
  client.HTTPClient (client.NewClient (opts ++ [client.WithBaseURL value]))
  = client.HTTPClient (client.NewClient opts).
Proof.
  unfold client.NewClient. cbv zeta. rewrite !foldl_app. by repeat split.
Qed.

(** * Further properties of the renderers *)

Section renderingMore.

Import jira prompt render references more.

(** The rest of text/template, for the templates outside the fragment. *)
Variable library : Engine.

Lemma snoc_append (acc : string) (c : ascii) (rest : string) :
  template.snoc acc c +:+ rest = acc +:+ String c rest.
Proof. unfold template.snoc. by rewrite append_assoc. Qed.

(** One step of the lexer in text, two bytes ahead. *)
Lemma lex_text_step (acc : string) (c c' : ascii) (rest' : string) :
  template.isByte 123 c && template.isByte 123 c' = false ->
  template.lex false acc (String c (String c' rest'))
  = template.lex false (template.snoc acc c) (String c' rest').
Proof.
  intros H.
  change (template.lex false acc (String c (String c' rest')))
    with (if template.isByte 123 c && template.isByte 123 c'
          then (template.emitText acc ++ template.lex true "" rest')%list
          else template.lex false (template.snoc acc c) (String c' rest')).
  by rewrite H.
Qed.

(** Text without a left delimiter is one text item. *)
Lemma lex_noLeftDelim (text acc : string) :
  noLeftDelim text = true ->
  template.lex false acc text = template.emitText (acc +:+ text).
Proof.
  revert acc. induction text as [|c rest IH]; intros acc H.
  - by rewrite append_nil_r.
  - destruct rest as [|c' rest'].
    + reflexivity.
    + change (negb (template.isByte 123 c && template.isByte 123 c')
              && noLeftDelim (String c' rest') = true) in H.
      apply andb_true_iff in H as [Hc Hrest].
      apply negb_true_iff in Hc. rewrite (lex_text_step _ _ _ _ Hc).
      rewrite (IH _ Hrest). by rewrite snoc_append.
Qed.

Lemma noBrace_noLeftDelim (text : string) :
  noBrace text = true -> noLeftDelim text = true.
Proof.
  induction text as [|c rest IH]; [reflexivity|].
  cbn [noBrace]. intros [Hc Hrest]%andb_true_iff.
  destruct rest as [|c' rest']; [reflexivity|].
  change (negb (template.isByte 123 c && template.isByte 123 c')
          && noLeftDelim (String c' rest') = true).
  rewrite (IH Hrest). apply negb_true_iff in Hc. by rewrite Hc.
Qed.

(** Text without a brace in front of a left delimiter: the text item,
    then the action. *)
Lemma lex_text_then_action (text acc s : string) :
  noBrace text = true ->
  template.lex false acc (text +:+ "{{" +:+ s)
  = (template.emitText (acc +:+ text) ++ template.lex true "" s)%list.
Proof.
  revert acc. induction text as [|c rest IH]; intros acc H.
  - rewrite append_nil_r. reflexivity.
  - cbn [noBrace] in H. apply andb_true_iff in H as [Hc Hrest].
    apply negb_true_iff in Hc.
    assert (forall c', template.isByte 123 c && template.isByte 123 c' = false)
      as Hstep by (intros c'; by rewrite Hc).
    destruct rest as [|c' rest'].
    + change (String c "" +:+ "{{" +:+ s) with (String c (String "{" (String "{" s))).
      rewrite (lex_text_step _ _ _ _ (Hstep _)).
      by rewrite <- (snoc_append acc c ""), append_nil_r.
    + change (String c (String c' rest') +:+ "{{" +:+ s)
        with (String c (String c' (rest' +:+ "{{" +:+ s))).
      rewrite (lex_text_step _ _ _ _ (Hstep _)).
      change (String c' (rest' +:+ "{{" +:+ s))
        with (String c' rest' +:+ "{{" +:+ s).
      rewrite (IH _ Hrest). by rewrite snoc_append.
Qed.

Lemma emitText_textNodes (text : string) (items : list template.item)
    (cur : list template.Node) (stack : list template.openIf) :
  template.parseItems (template.emitText text ++ items) cur stack
  = template.parseItems items (cur ++ textNodes text) stack.
Proof.
  unfold template.emitText, textNodes.
  destruct (String.eqb text ""); [by rewrite app_nil_r|reflexivity].
Qed.

Lemma existsb_isOther_emitText (text : string) (items : list template.item) :
  existsb template.isOther (template.emitText text ++ items)
  = existsb template.isOther items.
Proof. unfold template.emitText. by destruct (String.eqb text ""). Qed.

Lemma walkList_app (dot : TemplateData.t) (l1 l2 : list template.Node)
    (wr : string) :
  template.walkList dot (l1 ++ l2) wr
  = match template.walkList dot l1 wr with
    | (wr', None) => template.walkList dot l2 wr'
    | (wr', Some err) => (wr', Some err)
    end.
Proof.
  revert wr. induction l1 as [|n l1 IH]; intros wr; [reflexivity|].
  cbn [app template.walkList].
  destruct (template.walk dot n wr) as [wr' [err|]]; [reflexivity|apply IH].
Qed.

Lemma walkList_textNodes (dot : TemplateData.t) (text wr : string) :
  template.walkList dot (textNodes text) wr = (wr +:+ text, None).
Proof.
  unfold textNodes. destruct (String.eqb_spec text "") as [->|];
    [by rewrite append_nil_r|reflexivity].
Qed.

(** X12.  A template without a left delimiter is literal text and is
    rendered as it is, whatever the ticket: nothing is added, changed or
    removed. *)
Theorem literal_template_verbatim
    (fs : Files) (templatePath : string) (ticket : Ticket.t) (text : string) :
  os_ReadFile fs templatePath = inr text ->
  noLeftDelim text = true ->
  LoadAndRenderTemplate fs (goTemplate library) templatePath ticket = (text, None).
Proof.
  intros Hread Hplain. unfold LoadAndRenderTemplate. rewrite Hread.
  cbn [template_Parse template_Execute goTemplate].
  unfold template.Parse. rewrite (lex_noLeftDelim text "" Hplain).
  change ("" +:+ text) with text.
  rewrite <- (app_nil_r (template.emitText text)) at 1.
  rewrite existsb_isOther_emitText. cbn [existsb].
  rewrite <- (app_nil_r (template.emitText text)).
  rewrite emitText_textNodes. cbn [template.parseItems app].
  unfold template.Execute. by rewrite walkList_textNodes.
Qed.

(** Executing a node that refers to known fields only does not fail. *)
Lemma walk_knownOnly (dot : TemplateData.t) :
  forall (node : template.Node) (wr : string),
    knownOnly node = true ->
    exists wr', template.walk dot node wr = (wr', None).
Proof.
  fix IH 1. intros [text|ident|pipe list elseList] wr H.
  - eexists. reflexivity.
  - cbn [knownOnly] in H. apply negb_true_iff in H.
    destruct (known_evalField dot ident H) as [v E].
    cbn [template.walk]. rewrite E. eauto.
  - rewrite walk_IfNode. cbn [knownOnly] in H.
    apply andb_true_iff in H as [[Hpipe Hlist]%andb_true_iff Helse].
    apply negb_true_iff in Hpipe.
    destruct (known_evalField dot pipe Hpipe) as [v ->].
    destruct (template.isTrue v).
    + clear -IH Hlist. revert wr.
      induction list as [|n rest IHrest]; intros wr; [eexists; reflexivity|].
      cbn [forallb] in Hlist. apply andb_true_iff in Hlist as [Hn Hrest].
      cbn [template.walkList]. destruct (IH n wr Hn) as [wr' ->].
      apply IHrest. exact Hrest.
    + clear -IH Helse. revert wr.
      induction elseList as [|n rest IHrest]; intros wr; [eexists; reflexivity|].
      cbn [forallb] in Helse. apply andb_true_iff in Helse as [Hn Hrest].
      cbn [template.walkList]. destruct (IH n wr Hn) as [wr' ->].
      apply IHrest. exact Hrest.
Qed.

Lemma walkList_knownOnly (dot : TemplateData.t) (nodes : list template.Node)
    (wr : string) :
  forallb knownOnly nodes = true ->
  exists wr', template.walkList dot nodes wr = (wr', None).
Proof.
  revert wr. induction nodes as [|n rest IH]; intros wr H; [eexists; reflexivity|].
  cbn [forallb] in H. apply andb_true_iff in H as [Hn Hrest].
  cbn [template.walkList]. destruct (walk_knownOnly dot n wr Hn) as [wr' ->].
  apply IH. exact Hrest.
Qed.

(** The parser puts into the tree the references of the items, no
    others. *)
Lemma parseItems_knownOnly (items : list template.item) :
  forall (cur : list template.Node) (stack : list template.openIf)
         (root : list template.Node),
    allKnown (omap itemReference items) = true ->
    forallb knownOnly cur = true ->
    forallb knownOpenIf stack = true ->
    template.parseItems items cur stack = template.Parsed root ->
    forallb knownOnly root = true.
Proof.
  unfold allKnown.
  induction items as [|i items IH]; intros cur stack root Hitems Hcur Hstack Hparse.
  - cbn [template.parseItems] in Hparse. destruct stack; [|discriminate Hparse].
    by injection Hparse as <-.
  - rewrite omap_cons in Hitems.
    destruct i as [text|name|name| | |action|]; cbn [itemReference] in Hitems;
      cbn [template.parseItems] in Hparse; try discriminate Hparse.
    + apply (IH _ _ _ Hitems) in Hparse; [done| |done].
      rewrite forallb_app, Hcur. reflexivity.
    + cbn [forallb] in Hitems. apply andb_true_iff in Hitems as [Hname Hitems].
      apply (IH _ _ _ Hitems) in Hparse; [done| |done].
      rewrite forallb_app, Hcur. cbn [forallb knownOnly]. by rewrite Hname.
    + cbn [forallb] in Hitems. apply andb_true_iff in Hitems as [Hname Hitems].
      apply (IH _ _ _ Hitems) in Hparse; [done|done|].
      cbn [forallb]. rewrite Hstack. unfold knownOpenIf.
      cbn [template.pipe template.outer template.first].
      by rewrite Hname, Hcur.
    + destruct stack as [|o stack']; [discriminate Hparse|].
      cbn [forallb] in Hstack. apply andb_true_iff in Hstack as [Ho Hstack'].
      unfold knownOpenIf in Ho.
      apply andb_true_iff in Ho as [[Hpipe Houter]%andb_true_iff Hfirst].
      destruct (template.first o) as [list|] eqn:E; [discriminate Hparse|].
      apply (IH _ _ _ Hitems) in Hparse; [done|done|].
      cbn [forallb]. rewrite Hstack'. unfold knownOpenIf.
      cbn [template.pipe template.outer template.first].
      by rewrite Hpipe, Houter, Hcur.
    + destruct stack as [|o stack']; [discriminate Hparse|].
      cbn [forallb] in Hstack. apply andb_true_iff in Hstack as [Ho Hstack'].
      unfold knownOpenIf in Ho.
      apply andb_true_iff in Ho as [[Hpipe Houter]%andb_true_iff Hfirst].
      apply (IH _ _ _ Hitems) in Hparse; [done| |done].
      rewrite forallb_app, Houter. cbn [forallb].
      destruct (template.first o) as [list|]; cbn [knownOnly forallb];
        by rewrite Hpipe, ?Hfirst, Hcur.
Qed.

(** X13.  A template of the fragment that parses and refers to fields of
    the known set only is rendered without error, for every ticket. *)
Theorem known_fields_only_renders
    (fs : Files) (templatePath : string) (ticket : Ticket.t)
    (text : string) (root : list template.Node) :
  os_ReadFile fs templatePath = inr text ->
  template.Parse text = template.Parsed root ->
  allKnown (referencedFields text) = true ->
  exists out,
    LoadAndRenderTemplate fs (goTemplate library) templatePath ticket = (out, None).
Proof.
  intros Hread Hparse Hknown.
  unfold LoadAndRenderTemplate. rewrite Hread.
  cbn [template_Parse template_Execute goTemplate]. rewrite Hparse.
  unfold template.Parse in Hparse.
  destruct (existsb template.isOther (template.lex false "" text));
    [discriminate Hparse|].
  pose proof (parseItems_knownOnly _ [] [] root Hknown eq_refl eq_refl Hparse)
    as Hroot.
  destruct (walkList_knownOnly (createTemplateData ticket) root "" Hroot)
    as [out Hout].
  unfold template.Execute. rewrite Hout. eauto.
Qed.

(** A conditional block of literal text between literal texts: the
    rendering, given how the lexer reads the guard. *)
Lemma conditional_block_general
    (fs : Files) (templatePath : string) (ticket : Ticket.t)
    (guard pre block post v : string) :
  (forall s,
      template.lex true "" ("if ." +:+ guard +:+ "}}" +:+ s)
      = template.itemIf guard :: template.lex false "" s) ->
  template.evalField (createTemplateData ticket) guard = inr v ->
  noBrace pre = true -> noBrace block = true -> noBrace post = true ->
  os_ReadFile fs templatePath
  = inr (pre +:+ "{{if ." +:+ guard +:+ "}}" +:+ block +:+ "{{end}}" +:+ post) ->
  LoadAndRenderTemplate fs (goTemplate library) templatePath ticket
  = (if String.eqb v "" then pre +:+ post else pre +:+ block +:+ post, None).
Proof.
  intros Hguard Hv Hpre Hblock Hpost Hread.
  unfold LoadAndRenderTemplate. rewrite Hread.
  cbn [template_Parse template_Execute goTemplate].
  unfold template.Parse.
  change (pre +:+ "{{if ." +:+ guard +:+ "}}" +:+ block +:+ "{{end}}" +:+ post)
    with (pre +:+ "{{" +:+
          ("if ." +:+ guard +:+ "}}" +:+ (block +:+ "{{" +:+ ("end}}" +:+ post)))).
  rewrite (lex_text_then_action pre "" _ Hpre), Hguard.
  rewrite (lex_text_then_action block "" _ Hblock).
  change (template.lex true "" ("end}}" +:+ post))
    with (template.itemEnd :: template.lex false "" post).
  rewrite (lex_noLeftDelim post "" (noBrace_noLeftDelim post Hpost)).
  change ("" +:+ pre) with pre. change ("" +:+ block) with block.
  change ("" +:+ post) with post.
  rewrite existsb_isOther_emitText. cbn [existsb template.isOther orb].
  rewrite existsb_isOther_emitText. cbn [existsb template.isOther orb].
  rewrite <- (app_nil_r (template.emitText post)).
  rewrite existsb_isOther_emitText. cbn [existsb].
  rewrite emitText_textNodes. cbn [template.parseItems].
  rewrite emitText_textNodes. cbn [template.parseItems template.first
                                   template.outer template.pipe].
  rewrite emitText_textNodes. cbn [template.parseItems app].
  unfold template.Execute.
  rewrite !walkList_app, walkList_textNodes.
  cbn [template.walkList]. rewrite walk_IfNode, Hv.
  unfold template.isTrue.
  destruct (String.eqb v ""); cbn [negb].
  - cbn [template.walkList]. by rewrite walkList_textNodes.
  - rewrite walkList_textNodes, walkList_textNodes. by rewrite append_assoc.
Qed.

(** X14.  A template made of literal text, a block of literal text
    guarded by one of the known fields, and literal text again (none of
    the three with an opening brace) renders to the two outer texts with
    the block between them when the guard's value is not empty, and to
    the two outer texts alone, joined without anything between, when it
    is empty; so a Components block is left out for a ticket without
    components. *)
Theorem conditional_block
    (fs : Files) (templatePath : string) (ticket : Ticket.t)
    (guard pre block post : string) :
  In guard template.knownFields ->
  noBrace pre = true -> noBrace block = true -> noBrace post = true ->
  os_ReadFile fs templatePath
  = inr (pre +:+ "{{if ." +:+ guard +:+ "}}" +:+ block +:+ "{{end}}" +:+ post) ->
  (exists v,
      template.evalField (createTemplateData ticket) guard = inr v /\
      LoadAndRenderTemplate fs (goTemplate library) templatePath ticket
      = (if String.eqb v "" then pre +:+ post else pre +:+ block +:+ post,
         None)) /\
  (guard = "Components" ->
   Ticket.Components ticket = [] ->
   LoadAndRenderTemplate fs (goTemplate library) templatePath ticket = (pre +:+ post, None)).
Proof.
  intros Hguard Hpre Hblock Hpost Hread.
  assert (forall s,
             template.lex true "" ("if ." +:+ guard +:+ "}}" +:+ s)
             = template.itemIf guard :: template.lex false "" s) as Hlex.
  { cbn [In template.knownFields] in Hguard.
    repeat (destruct Hguard as [<-|Hguard]; [intros s; reflexivity|]).
    destruct Hguard. }
  assert (unknownField guard = false) as Hknown.
  { cbn [In template.knownFields] in Hguard.
    repeat (destruct Hguard as [<-|Hguard]; [reflexivity|]).
    destruct Hguard. }
  destruct (known_evalField (createTemplateData ticket) guard Hknown) as [v Hv].
  split.
  - exists v. split; [exact Hv|].
    by apply (conditional_block_general fs templatePath ticket guard).
  - intros -> Hnone.
    rewrite (conditional_block_general fs templatePath ticket "Components"
               pre block post v Hlex Hv Hpre Hblock Hpost Hread).
    rewrite createTemplateData_fields, Hnone in Hv.
    injection Hv as <-. reflexivity.
Qed.

(** X15.  LoadAndRenderTemplate returns text only with the nil error:
    every error comes with the empty text, and is the wrapped error of
    the read, of the parse or of the execution.  When the file cannot be
    read the error names the path and the template engine has no part in
    the result; without the [--template] flag that path is the default
    one. *)
Theorem LoadAndRenderTemplate_errors
    (fs : Files) (engine : Engine) (templatePath : string) (ticket : Ticket.t) :
  (forall text err,
      LoadAndRenderTemplate fs engine templatePath ticket = (text, Some err) ->
      text = "" /\
      exists cause,
        err = Errorf_w ("failed to read template file " +:+ templatePath +:+ ": ")
                cause \/
        err = Errorf_w "failed to parse template: " cause \/
        err = Errorf_w "failed to execute template: " cause) /\
  (forall cause,
      os_ReadFile fs templatePath = inl cause ->
      forall engine' : Engine,
        LoadAndRenderTemplate fs engine' templatePath ticket
        = ("",
           Some (Errorf_w ("failed to read template file " +:+ templatePath
                           +:+ ": ") cause))) /\
  (forall cause,
      os_ReadFile fs "prompts/implementation-plan.md" = inl cause ->
      runJiraGenerator fs engine "" ticket
      = ("",
         Some (Errorf_w
                 "failed to read template file prompts/implementation-plan.md: "
                 cause))).
Proof.
  split; [|split].
  - intros text err. unfold LoadAndRenderTemplate.
    destruct (os_ReadFile fs templatePath) as [e|content];
      [intros [= <- <-]; eauto|].
    destruct (template_Parse engine _ content) as [e|tmpl];
      [intros [= <- <-]; eauto|].
    destruct (template_Execute engine tmpl _) as [buf [e|]];
      [intros [= <- <-]; eauto 6|].
    intros [=].
  - intros cause Hread engine'. unfold LoadAndRenderTemplate. by rewrite Hread.
  - intros cause Hread. unfold runJiraGenerator, LoadAndRenderTemplate.
    cbn [String.eqb]. unfold GetDefaultTemplatePath. by rewrite Hread.
Qed.

End renderingMore.

(** * Further properties of the flattening *)

Section flattenMore.

Import prompt blank writes more.

Lemma writeRequirement_bullet (req : POMLRequirement.t) :
  writeRequirement "" req = if blankRequirement req then "" else bullet req.
Proof. reflexivity. Qed.

Lemma concat_bullets (reqs : list POMLRequirement.t) :
  String.concat "" (map (writeRequirement "") reqs)
  = String.concat ""
      (map bullet (List.filter (fun req => negb (blankRequirement req)) reqs)).
Proof.
  induction reqs as [|req reqs IH]; [reflexivity|].
  cbn [map List.filter]. rewrite concat_cons, IH, writeRequirement_bullet.
  destruct (blankRequirement req); cbn [negb map]; [reflexivity|].
  by rewrite concat_cons.
Qed.

(** X16.  With at least one requirement, the Instructions block is the
    heading, one bullet line with the trimmed text for each requirement
    that is not blank, in the order of the document, and a line feed; a
    requirement that is empty after trimming leaves no line, not even an
    empty bullet. *)
Theorem instructions_bullets (doc : POMLDocument.t) :
  POMLDocument.Instructions doc <> [] ->
  addInstructions "" doc
  = ("Instructions:" +:+ nl) +:+
    String.concat ""
      (map bullet
         (List.filter (fun req => negb (blankRequirement req))
            (POMLDocument.Instructions doc))) +:+
    nl.
Proof.
  intros Hne. rewrite (addInstructions_heading doc Hne).
  rewrite (foldl_in_order writeRequirement _ appendOnly_writeRequirement).
  by rewrite concat_bullets.
Qed.

Lemma endsWithNl_append (a b : string) :
  endsWithNl (a +:+ b) = if String.eqb b "" then endsWithNl a else endsWithNl b.
Proof.
  destruct (String.eqb_spec b "") as [->|Hb]; [by rewrite append_nil_r|].
  induction a as [|c a IH]; [reflexivity|].
  change (String c a +:+ b) with (String c (a +:+ b)).
  destruct (a +:+ b) as [|c' rest] eqn:E.
  - apply append_empty in E as [_ ->]. by destruct Hb.
  - exact IH.
Qed.

Lemma closedLine_append (a b : string) :
  closedLine a -> closedLine b -> closedLine (a +:+ b).
Proof.
  unfold closedLine. intros Ha [->|Hb].
  - by rewrite append_nil_r.
  - right. rewrite endsWithNl_append.
    destruct (String.eqb_spec b "") as [->|]; [discriminate Hb|exact Hb].
Qed.

Lemma closedLine_nl (a : string) : closedLine (a +:+ nl).
Proof. right. by rewrite endsWithNl_append. Qed.

Lemma closedLine_empty : closedLine "".
Proof. by left. Qed.

Lemma closedLine_concat {A : Type} (f : A -> string) (l : list A) :
  (forall x, closedLine (f x)) -> closedLine (String.concat "" (map f l)).
Proof.
  intros Hf. induction l as [|x l IH]; [apply closedLine_empty|].
  cbn [map]. rewrite concat_cons. by apply closedLine_append.
Qed.

Lemma closedLine_writeOutputSection (section : POMLOutputSection.t) :
  closedLine (writeOutputSection "" section).
Proof.
  unfold writeOutputSection, WriteString. cbv zeta.
  destruct (String.eqb (POMLOutputSection.Title section) "");
    destruct (String.eqb (POMLOutputSection.Content section) "").
  - apply closedLine_empty.
  - change ("" +:+ ?x) with x. rewrite <- append_assoc. apply closedLine_nl.
  - change ("" +:+ ?x) with x. rewrite <- append_assoc. apply closedLine_nl.
  - rewrite <- !append_assoc. apply closedLine_nl.
Qed.

(** X17.  The flattened text is empty or ends with a line feed: no block
    leaves its last line open. *)
Theorem convertPOMLToPrompt_closed_line (doc : POMLDocument.t) :
  convertPOMLToPrompt doc = "" \/ endsWithNl (convertPOMLToPrompt doc) = true.
Proof.
  change (closedLine (convertPOMLToPrompt doc)).
  rewrite convertPOMLToPrompt_blocks.
  repeat apply closedLine_append.
  - unfold addRole, WriteString. destruct (String.eqb _ "");
      [apply closedLine_empty|].
    rewrite <- !append_assoc. apply closedLine_nl.
  - unfold addTask, WriteString. destruct (String.eqb _ "");
      [apply closedLine_empty|].
    rewrite <- !append_assoc. apply closedLine_nl.
  - destruct (POMLContext.Sections (POMLDocument.Context doc)) as [|x l] eqn:E.
    + unfold addContext. rewrite E. apply closedLine_empty.
    + rewrite addContext_heading by (by rewrite E).
      rewrite <- !append_assoc. apply closedLine_nl.
  - destruct (POMLDocument.Instructions doc) as [|x l] eqn:E.
    + unfold addInstructions. rewrite E. apply closedLine_empty.
    + rewrite addInstructions_heading by (by rewrite E).
      rewrite <- !append_assoc. apply closedLine_nl.
  - destruct (POMLOutputFormat.Sections (POMLDocument.OutputFormat doc))
      as [|x l] eqn:E.
    + unfold addOutputFormat. rewrite E. apply closedLine_empty.
    + rewrite addOutputFormat_heading by (by rewrite E).
      apply closedLine_append.
      * rewrite <- append_assoc. apply closedLine_nl.
      * rewrite (foldl_in_order writeOutputSection _
                   appendOnly_writeOutputSection).
        apply closedLine_concat, closedLine_writeOutputSection.
  - unfold addStyle, WriteString. cbv zeta. destruct (String.eqb _ "");
      [apply closedLine_empty|].
    rewrite <- !append_assoc. apply closedLine_nl.
Qed.

End flattenMore.

(** * Properties of the plan file *)

Section planFacts.

Import jira prompt projection planfile.

Lemma foldl_names (comps : list Component.t) (acc : list string) :
  foldl (fun (compNames : list string) comp =>
           (compNames ++ [Component.Name comp])%list) acc comps
  = (acc ++ map Component.Name comps)%list.
Proof.
  revert acc. induction comps as [|c comps IH]; intros acc.
  - by rewrite app_nil_r.
  - cbn [foldl map]. rewrite IH. by rewrite <- app_assoc.
Qed.

(** X18.  The content of the plan file is the title with the ticket's
    summary, a blank line, the lines Ticket ID, Generated, Status, Type,
    Priority, Assignee (or Unassigned) and Reporter, the Components line
    with the names alone (no leads) when there are components, the Labels
    line when there are labels, a rule between blank lines, and then the
    plan as it is. *)
Theorem planContent_lines
    (ticketID : string) (ticket : Ticket.t) (generated plan : string) :
  planContent ticketID ticket generated plan
  = ("# Implementation Plan: " +:+ Ticket.Summary ticket +:+ nl +:+ nl) +:+
    ("**Ticket ID:** " +:+ ticketID +:+ nl) +:+
    ("**Generated:** " +:+ generated +:+ nl) +:+
    ("**Status:** " +:+ Status.Name (Ticket.Status ticket) +:+ nl) +:+
    ("**Type:** " +:+ IssueType.Name (Ticket.IssueType ticket) +:+ nl) +:+
    ("**Priority:** " +:+ Priority.Name (Ticket.Priority ticket) +:+ nl) +:+
    ("**Assignee:** " +:+ TemplateData.Assignee (createTemplateData ticket)
     +:+ nl) +:+
    ("**Reporter:** " +:+ User.DisplayName (Ticket.Reporter ticket) +:+ nl) +:+
    match Ticket.Components ticket with
    | [] => ""
    | _ :: _ =>
        "**Components:** " +:+
        commaJoined (map Component.Name (Ticket.Components ticket)) +:+ nl
    end +:+
    match Ticket.Labels ticket with
    | [] => ""
    | _ :: _ => "**Labels:** " +:+ commaJoined (Ticket.Labels ticket) +:+ nl
    end +:+
    (nl +:+ "---" +:+ nl +:+ nl) +:+
    plan.
Proof.
  rewrite createTemplateData_fields. cbn [TemplateData.Assignee].
  unfold planContent, strings_Join, commaJoined. cbv zeta.
  destruct (Ticket.Assignee ticket) as [a|];
    destruct (Ticket.Components ticket) as [|c comps] eqn:Ec;
    destruct (Ticket.Labels ticket) as [|l labels];
    cbn [length Nat.ltb Nat.leb];
    rewrite ?foldl_names; cbn [app]; unfold WriteString;
    rewrite ?append_assoc, ?append_nil_r; reflexivity.
Qed.

Variable os_MkdirAll : string -> option error.
Variable os_WriteFile : string -> string -> option error.
Variable filepath_Join : string -> string -> string.
Variable timestamp : string.
Variable generated : string.

(** X19.  saveImplementationPlan creates the directory first; when that
    fails it returns the wrapped error and writes nothing.  Otherwise it
    writes one file, named by the ticket id, an underscore, the
    timestamp and [.md] inside the directory, with the plan content;
    the success message is printed exactly when the error is nil, and a
    failed write returns the wrapped error that names the file. *)
Theorem saveImplementationPlan_effects
    (ticketID : string) (ticket : Ticket.t) (plan dir : string) :
  let result :=
    saveImplementationPlan os_MkdirAll os_WriteFile filepath_Join timestamp
      generated ticketID ticket plan dir in
  let filePath :=
    filepath_Join dir (ticketID +:+ "_" +:+ timestamp +:+ ".md") in
  let content := planContent ticketID ticket generated plan in
  (forall err,
      os_MkdirAll dir = Some err ->
      result
      = ([MkdirAll dir 493],
         Some (Errorf_w ("failed to create directory " +:+ dir +:+ ": ") err))) /\
  (os_MkdirAll dir = None ->
   exists after,
     fst result = MkdirAll dir 493 :: WriteFile filePath content 420 :: after /\
     (forall name data perm, ~ In (WriteFile name data perm) after) /\
     (snd result = None <-> after <> []) /\
     (forall err,
         os_WriteFile filePath content = Some err ->
         snd result
         = Some (Errorf_w ("failed to write file " +:+ filePath +:+ ": ") err))).
Proof.
  cbv zeta. unfold saveImplementationPlan. split.
  - by intros err ->.
  - intros ->.
    destruct (os_WriteFile _ _) as [err|]; eexists; cbn [fst snd];
      (split; [reflexivity|]); (split; [|split]).
    + intros name data perm [].
    + split; [discriminate|]. by intros [].
    + by intros e [= <-].
    + intros name data perm [H|[]]. discriminate H.
    + split; [discriminate|reflexivity].
    + intros e [=].
Qed.

End planFacts.

(** * The further properties at sample inputs *)

Lemma parseTicket_labels_witness :
  jira.Ticket.Labels (fst (jira.parseTicket scenario.oneInstant samples.mixedResponse))
  = ["backend"; "urgent"].
Proof.
  exact (proj1 (parseTicket_labels scenario.oneInstant samples.mixedResponse
                  _ eq_refl)).
Defined.

Lemma parseTicket_components_witness :
  map jira.Component.Name
    (jira.Ticket.Components
       (fst (jira.parseTicket scenario.oneInstant samples.mixedResponse)))
  = ["Auth"; "Web"].
Proof.
  exact (proj1 (parseTicket_components scenario.oneInstant samples.mixedResponse
                  _ eq_refl)).
Defined.

Lemma parseTicket_known_keys_only_witness :
  jira.parseTicket scenario.oneInstant samples.mixedResponse
  = jira.parseTicket scenario.oneInstant samples.mixedResponseMore.
Proof.
  apply parseTicket_known_keys_only; [reflexivity|reflexivity|].
  intros key Hin. cbn [In more.knownKeys] in Hin.
  repeat (destruct Hin as [<-|Hin]; [reflexivity|]). destruct Hin.
Defined.

Lemma assignee_from_raw_map_witness :
  prompt.TemplateData.Assignee
    (prompt.createTemplateData
       (fst (jira.parseTicket scenario.oneInstant samples.mixedResponse)))
  = "Unassigned".
Proof.
  apply (proj1 (assignee_from_raw_map scenario.oneInstant samples.mixedResponse)).
  intros m H. vm_compute in H. discriminate H.
Defined.

Lemma labels_from_raw_map_witness :
  prompt.TemplateData.Labels
    (prompt.createTemplateData
       (fst (jira.parseTicket scenario.oneInstant samples.mixedResponse)))
  = "backend, urgent".
Proof.
  exact (proj1 (labels_from_raw_map scenario.oneInstant samples.mixedResponse)
           _ eq_refl).
Defined.

Lemma GetTicket_by_status_witness :
  client.GetTicket samples.anyURL samples.notFoundServer samples.noJSON
    scenario.oneInstant samples.tokenClient "LOGIN-1"
  = (None, Some (jiraerrors.TicketNotFoundError "LOGIN-1")).
Proof.
  destruct (GetTicket_by_status samples.anyURL samples.noJSON scenario.oneInstant
              samples.notFoundServer samples.tokenClient "LOGIN-1"
              (http.mkResponse 404 ("", None)) eq_refl
              (fun _ _ _ => eq_refl)) as (H404 & _).
  exact (proj1 (H404 eq_refl)).
Defined.

Lemma GetTicket_request_witness :
  exists req : http.Request,
    http.Header req !! "Authorization" = Some ["Bearer secret"] /\
    http.URL req = "https://issues.redhat.com/rest/api/2/issue/LOGIN-1".
Proof.
  destruct (GetTicket_request samples.anyURL samples.noJSON scenario.oneInstant
              samples.tokenClient "LOGIN-1" eq_refl)
    as (req & _ & Hurl & _ & _ & _ & Hauth & _).
  exists req. split; [|exact Hurl]. apply Hauth. discriminate.
Defined.

Lemma TestAuthentication_by_status_witness :
  client.TestAuthentication samples.anyURL samples.notFoundServer
    (client.NewClient [])
  = Some (jiraerrors.fmtError
            (libError "fmt" "no authentication token provided")).
Proof.
  exact (proj1 (TestAuthentication_by_status samples.anyURL
                  samples.notFoundServer (client.NewClient [])) eq_refl).
Defined.

Lemma literal_template_verbatim_witness :
  render.LoadAndRenderTemplate
    (scenario.files [("prompts/fixed.md", "Write a plan. Use { braces } freely.")])
    (render.goTemplate scenario.noLibrary) "prompts/fixed.md"
    scenario.loginTicket
  = ("Write a plan. Use { braces } freely.", None).
Proof.
  apply literal_template_verbatim; reflexivity.
Defined.

Lemma known_fields_only_renders_witness :
  exists out,
    render.LoadAndRenderTemplate
      (scenario.files [("prompts/short.md", "{{.Summary}} ({{.Status}})")])
      (render.goTemplate scenario.noLibrary) "prompts/short.md"
      scenario.loginTicket
    = (out, None).
Proof.
  apply (known_fields_only_renders scenario.noLibrary
           (scenario.files [("prompts/short.md", "{{.Summary}} ({{.Status}})")])
           "prompts/short.md" scenario.loginTicket
           "{{.Summary}} ({{.Status}})"
           [template.FieldNode "Summary"; template.TextNode " (";
            template.FieldNode "Status"; template.TextNode ")"]);
    reflexivity.
Defined.

Lemma conditional_block_witness :
  render.LoadAndRenderTemplate
    (scenario.files [("prompts/plan.md", samples.componentsTemplate)])
    (render.goTemplate scenario.noLibrary) "prompts/plan.md"
    scenario.loginTicket
  = ("Plan. Done.", None).
Proof.
  refine (proj2 (conditional_block scenario.noLibrary
                   (scenario.files [("prompts/plan.md", samples.componentsTemplate)])
                   "prompts/plan.md" scenario.loginTicket
                   "Components" "Plan." " Components involved." " Done."
                   _ eq_refl eq_refl eq_refl eq_refl) eq_refl eq_refl).
  cbn. tauto.
Defined.

Lemma LoadAndRenderTemplate_errors_witness :
  render.LoadAndRenderTemplate (scenario.files [])
    (render.goTemplate scenario.noLibrary)
    "prompts/missing.md" scenario.loginTicket
  = ("",
     Some (Errorf_w "failed to read template file prompts/missing.md: "
             (libError "os" "open prompts/missing.md: no such file or directory"))).
Proof.
  destruct (LoadAndRenderTemplate_errors (scenario.files [])
              (render.goTemplate scenario.noLibrary)
              "prompts/missing.md" scenario.loginTicket) as (_ & Hread & _).
  exact (Hread _ eq_refl (render.goTemplate scenario.noLibrary)).
Defined.

Lemma instructions_bullets_witness :
  prompt.addInstructions "" samples.threeRequirements
  = "Instructions:" +:+ nl +:+ "- Keep it short" +:+ nl +:+ "- Cite files" +:+ nl
    +:+ nl.
Proof.
  apply (instructions_bullets samples.threeRequirements). discriminate.
Defined.

Lemma saveImplementationPlan_effects_witness :
  planfile.saveImplementationPlan samples.readOnlyDisk samples.noWrite
    samples.slashJoin "20240917_143052" "2024-09-17 14:30:52"
    "LOGIN-1" scenario.loginTicket "Step one." "implementation-plans"
  = ([planfile.MkdirAll "implementation-plans" 493],
     Some (Errorf_w "failed to create directory implementation-plans: "
             (libError "os" "mkdir implementation-plans: read-only file system"))).
Proof.
  exact (proj1 (saveImplementationPlan_effects samples.readOnlyDisk samples.noWrite
                  samples.slashJoin "20240917_143052" "2024-09-17 14:30:52"
                  "LOGIN-1" scenario.loginTicket "Step one."
                  "implementation-plans") _ eq_refl).
Defined.

(** X20.  For a template of literal text, markers [{{.Name}}] and blocks
    [{{if .Name}}], [{{else}}], [{{end}}] that parses, the first phase of
    the POML renderer is the Markdown renderer: when
    LoadAndRenderTemplate gives a text for the file and the ticket,
    LoadAndRenderPOMLTemplate hands exactly that text to the XML decoder
    and returns the flattening of the decoded document, or the decoder's
    error, wrapped, with the empty text; and when LoadAndRenderTemplate
    fails, the POML renderer fails too, before the decoder is asked. *)
Theorem poml_first_phase_is_markdown
    (fs : render.Files) (library : render.Engine) (decoder : render.Decoder)
    (templatePath : string) (ticket : jira.Ticket.t)
    (content : string) (root : list template.Node) :
  render.os_ReadFile fs templatePath = inr content ->
  template.Parse content = template.Parsed root ->
  (forall buf,
      render.LoadAndRenderTemplate fs (render.goTemplate library) templatePath
        ticket
      = (buf, None) ->
      render.LoadAndRenderPOMLTemplate fs (render.goTemplate library) decoder
        templatePath ticket
      = match decoder buf with
        | inr pomlDoc => (prompt.convertPOMLToPrompt pomlDoc, None)
        | inl err => ("", Some (Errorf_w "failed to parse POML XML: " err))
        end) /\
  (forall err,
      render.LoadAndRenderTemplate fs (render.goTemplate library) templatePath
        ticket
      = ("", Some err) ->
      exists err',
        forall decoder' : render.Decoder,
          render.LoadAndRenderPOMLTemplate fs (render.goTemplate library)
            decoder' templatePath ticket
          = ("", Some err')).
Proof.
  intros Hread Hparse.
  unfold render.LoadAndRenderTemplate, render.LoadAndRenderPOMLTemplate.
  rewrite Hread.
  cbn [render.template_Parse render.template_Execute render.goTemplate].
  rewrite Hparse.
  destruct (template.Execute root _) as [out [e|]]; split.
  - intros buf H. discriminate H.
  - intros err _. eauto.
  - intros buf [= ->]. by destruct (decoder buf).
  - intros err H. discriminate H.
Qed.

Lemma poml_first_phase_is_markdown_witness :
  render.LoadAndRenderPOMLTemplate
    (scenario.files [("prompts/plan.poml", scenario.planTemplate)])
    (render.goTemplate scenario.noLibrary) scenario.noXML "prompts/plan.poml"
    scenario.loginTicket
  = ("", Some (Errorf_w "failed to parse POML XML: "
                 (libError "encoding/xml" "XML syntax error"))).
Proof.
  exact (proj1 (poml_first_phase_is_markdown
                  (scenario.files [("prompts/plan.poml", scenario.planTemplate)])
                  scenario.noLibrary scenario.noXML "prompts/plan.poml"
                  scenario.loginTicket scenario.planTemplate
                  [template.TextNode "<poml><task>Plan ";
                   template.FieldNode "Summary";
                   template.TextNode "</task></poml>"]
                  eq_refl eq_refl)
           "<poml><task>Plan Fix login bug</task></poml>" eq_refl).
Defined.
